(** * VKGL: backend references and the command scheduler

    A shallow embedding of
      - [include/OpenGL/backend/vk_reference.h]  (the backend buffer payload
        and its two comparison operators), and
      - [src/OpenGL/backend/vk_scheduler.cpp]    (the scheduler's destructor,
        worker loop, command dispatch and command handlers),
    followed by the properties established about them. *)

From Stdlib Require Import ZArith List String Ascii Bool Lia Permutation.
Import ListNotations.
Local Open Scope Z_scope.

(** ** Base types *)

(** [GLuint] is an unsigned 32-bit integer; only its value is compared. *)
Definition GLuint := Z.

(** [GLsizeiptr], the size argument of a buffer-data call. *)
Definition GLsizeiptr := Z.

(** Addresses held by the raw [Anvil::Buffer*] and [Anvil::MemoryBlock*]
    fields; [0] is the null pointer. *)
Definition ptr := Z.

(** Modelled from the spec: [OpenGL::TimeMarker] is declared in
    [OpenGL/reference.h], which is not among the sources at hand.  It is an
    opaque stamp, totally ordered by creation sequence, and two stamps compare
    equal exactly when they denote the same instant: a tick count. *)
Module TimeMarker.
Definition t := Z.
Definition operator_eq (a b : t) : bool := Z.eqb a b.
Definition operator_ne (a b : t) : bool := negb (operator_eq a b).
End TimeMarker.

(** ** [vk_reference.h]: the backend buffer payload *)

Module VKBufferPayload.

(** The fields, in declaration order. *)
Record t := Build
  { backend_buffer_creation_time_marker    : TimeMarker.t
  ; backend_mem_block_creation_time_marker : TimeMarker.t
  ; buffer_ptr                             : ptr
  ; frontend_object_creation_time_marker   : TimeMarker.t
  ; id                                     : GLuint
  ; memory_block_ptr                       : ptr
  }.

(** The constructor takes its arguments in another order than the fields
    are declared in. *)
Definition make
    (in_id : GLuint)
    (in_frontend_object_creation_time_marker : TimeMarker.t)
    (in_buffer_ptr : ptr)
    (in_backend_buffer_creation_time_marker : TimeMarker.t)
    (in_memory_block_ptr : ptr)
    (in_backend_mem_block_creation_time_marker : TimeMarker.t) : t :=
  {| backend_buffer_creation_time_marker    := in_backend_buffer_creation_time_marker
   ; backend_mem_block_creation_time_marker := in_backend_mem_block_creation_time_marker
   ; buffer_ptr                             := in_buffer_ptr
   ; frontend_object_creation_time_marker   := in_frontend_object_creation_time_marker
   ; id                                     := in_id
   ; memory_block_ptr                       := in_memory_block_ptr |}.

(** [bool operator==(const VKBufferPayload& in_ref) const] *)
Definition operator_eq (self in_ref : t) : bool :=
  Z.eqb (id self) (id in_ref)
  && TimeMarker.operator_eq (backend_buffer_creation_time_marker self)
                            (backend_buffer_creation_time_marker in_ref)
  && TimeMarker.operator_eq (backend_mem_block_creation_time_marker self)
                            (backend_mem_block_creation_time_marker in_ref)
  && TimeMarker.operator_eq (frontend_object_creation_time_marker self)
                            (frontend_object_creation_time_marker in_ref).

(** [bool operator!=(const VKBufferPayload& in_ref) const] *)
Definition operator_ne (self in_ref : t) : bool :=
  negb (Z.eqb (id self) (id in_ref))
  || TimeMarker.operator_ne (backend_buffer_creation_time_marker self)
                            (backend_buffer_creation_time_marker in_ref)
  || TimeMarker.operator_ne (backend_mem_block_creation_time_marker self)
                            (backend_mem_block_creation_time_marker in_ref)
  || TimeMarker.operator_ne (frontend_object_creation_time_marker self)
                            (frontend_object_creation_time_marker in_ref).

(** The same payload with other values in its two pointer fields. *)
Definition with_pointers (p : t) (b m : ptr) : t :=
  {| backend_buffer_creation_time_marker    := backend_buffer_creation_time_marker p
   ; backend_mem_block_creation_time_marker := backend_mem_block_creation_time_marker p
   ; buffer_ptr                             := b
   ; frontend_object_creation_time_marker   := frontend_object_creation_time_marker p
   ; id                                     := id p
   ; memory_block_ptr                       := m |}.

End VKBufferPayload.

(** Modelled from the spec: [ReferenceBase<Payload>] is declared in
    [OpenGL/reference.h], which is not among the sources at hand.  A reference
    owns a payload; [get_payload] reads it and [clone] hands out a reference
    of its own that carries a duplicate of the payload. *)
Module ReferenceBase.
Record t (Payload : Type) := Build { get_payload : Payload }.
Arguments Build {Payload} _.
Arguments get_payload {Payload} _.
Definition clone {Payload : Type} (r : t Payload) : t Payload :=
  Build (get_payload r).
End ReferenceBase.

(** [typedef ReferenceBase<VKBufferPayload> VKBufferReference;] *)
Definition VKBufferReference := ReferenceBase.t VKBufferPayload.t.

(** ** [vk_scheduler.cpp]: what the scheduler reads and writes *)

(** The payload of a frontend buffer reference: the three members that
    [process_buffer_data_command] reads from it. *)
Module GLBufferPayload.
Record t := Build
  { id                   : GLuint
  ; object_creation_time : TimeMarker.t
  ; time_marker          : TimeMarker.t
  }.
End GLBufferPayload.

Definition GLBufferReference := ReferenceBase.t GLBufferPayload.t.

(** The enumerators of [OpenGL::CommandType] named by the [switch] of
    [process_command], in the order of its [case] labels. *)
Inductive CommandType :=
| BUFFER_DATA | BUFFER_SUB_DATA | CLEAR | COMPILE_SHADER
| COMPRESSED_TEX_IMAGE_1D | COMPRESSED_TEX_IMAGE_2D | COMPRESSED_TEX_IMAGE_3D
| COMPRESSED_TEX_SUB_IMAGE_1D | COMPRESSED_TEX_SUB_IMAGE_2D
| COMPRESSED_TEX_SUB_IMAGE_3D
| COPY_BUFFER_SUB_DATA | COPY_TEX_IMAGE_1D | COPY_TEX_IMAGE_2D
| COPY_TEX_SUB_IMAGE_1D | COPY_TEX_SUB_IMAGE_2D | COPY_TEX_SUB_IMAGE_3D
| DRAW_ARRAYS | DRAW_ELEMENTS | DRAW_RANGE_ELEMENTS
| FINISH | FLUSH | FLUSH_MAPPED_BUFFER_RANGE
| GET_BUFFER_SUB_DATA | GET_COMPRESSED_TEX_IMAGE | GET_TEXTURE_IMAGE
| LINK_PROGRAM | MAP_BUFFER | MULTI_DRAW_ARRAYS | MULTI_DRAW_ELEMENTS
| READ_PIXELS
| TEX_IMAGE_1D | TEX_IMAGE_2D | TEX_IMAGE_3D
| TEX_SUB_IMAGE_1D | TEX_SUB_IMAGE_2D | TEX_SUB_IMAGE_3D
| UNMAP_BUFFER | VALIDATE_PROGRAM.

Definition all_command_types : list CommandType :=
  [ BUFFER_DATA; BUFFER_SUB_DATA; CLEAR; COMPILE_SHADER
  ; COMPRESSED_TEX_IMAGE_1D; COMPRESSED_TEX_IMAGE_2D; COMPRESSED_TEX_IMAGE_3D
  ; COMPRESSED_TEX_SUB_IMAGE_1D; COMPRESSED_TEX_SUB_IMAGE_2D
  ; COMPRESSED_TEX_SUB_IMAGE_3D
  ; COPY_BUFFER_SUB_DATA; COPY_TEX_IMAGE_1D; COPY_TEX_IMAGE_2D
  ; COPY_TEX_SUB_IMAGE_1D; COPY_TEX_SUB_IMAGE_2D; COPY_TEX_SUB_IMAGE_3D
  ; DRAW_ARRAYS; DRAW_ELEMENTS; DRAW_RANGE_ELEMENTS
  ; FINISH; FLUSH; FLUSH_MAPPED_BUFFER_RANGE
  ; GET_BUFFER_SUB_DATA; GET_COMPRESSED_TEX_IMAGE; GET_TEXTURE_IMAGE
  ; LINK_PROGRAM; MAP_BUFFER; MULTI_DRAW_ARRAYS; MULTI_DRAW_ELEMENTS
  ; READ_PIXELS
  ; TEX_IMAGE_1D; TEX_IMAGE_2D; TEX_IMAGE_3D
  ; TEX_SUB_IMAGE_1D; TEX_SUB_IMAGE_2D; TEX_SUB_IMAGE_3D
  ; UNMAP_BUFFER; VALIDATE_PROGRAM ].

(** The spelling of each enumerator. *)
Definition CommandType_name (t : CommandType) : string :=
  match t with
  | BUFFER_DATA => "BUFFER_DATA"
  | BUFFER_SUB_DATA => "BUFFER_SUB_DATA"
  | CLEAR => "CLEAR"
  | COMPILE_SHADER => "COMPILE_SHADER"
  | COMPRESSED_TEX_IMAGE_1D => "COMPRESSED_TEX_IMAGE_1D"
  | COMPRESSED_TEX_IMAGE_2D => "COMPRESSED_TEX_IMAGE_2D"
  | COMPRESSED_TEX_IMAGE_3D => "COMPRESSED_TEX_IMAGE_3D"
  | COMPRESSED_TEX_SUB_IMAGE_1D => "COMPRESSED_TEX_SUB_IMAGE_1D"
  | COMPRESSED_TEX_SUB_IMAGE_2D => "COMPRESSED_TEX_SUB_IMAGE_2D"
  | COMPRESSED_TEX_SUB_IMAGE_3D => "COMPRESSED_TEX_SUB_IMAGE_3D"
  | COPY_BUFFER_SUB_DATA => "COPY_BUFFER_SUB_DATA"
  | COPY_TEX_IMAGE_1D => "COPY_TEX_IMAGE_1D"
  | COPY_TEX_IMAGE_2D => "COPY_TEX_IMAGE_2D"
  | COPY_TEX_SUB_IMAGE_1D => "COPY_TEX_SUB_IMAGE_1D"
  | COPY_TEX_SUB_IMAGE_2D => "COPY_TEX_SUB_IMAGE_2D"
  | COPY_TEX_SUB_IMAGE_3D => "COPY_TEX_SUB_IMAGE_3D"
  | DRAW_ARRAYS => "DRAW_ARRAYS"
  | DRAW_ELEMENTS => "DRAW_ELEMENTS"
  | DRAW_RANGE_ELEMENTS => "DRAW_RANGE_ELEMENTS"
  | FINISH => "FINISH"
  | FLUSH => "FLUSH"
  | FLUSH_MAPPED_BUFFER_RANGE => "FLUSH_MAPPED_BUFFER_RANGE"
  | GET_BUFFER_SUB_DATA => "GET_BUFFER_SUB_DATA"
  | GET_COMPRESSED_TEX_IMAGE => "GET_COMPRESSED_TEX_IMAGE"
  | GET_TEXTURE_IMAGE => "GET_TEXTURE_IMAGE"
  | LINK_PROGRAM => "LINK_PROGRAM"
  | MAP_BUFFER => "MAP_BUFFER"
  | MULTI_DRAW_ARRAYS => "MULTI_DRAW_ARRAYS"
  | MULTI_DRAW_ELEMENTS => "MULTI_DRAW_ELEMENTS"
  | READ_PIXELS => "READ_PIXELS"
  | TEX_IMAGE_1D => "TEX_IMAGE_1D"
  | TEX_IMAGE_2D => "TEX_IMAGE_2D"
  | TEX_IMAGE_3D => "TEX_IMAGE_3D"
  | TEX_SUB_IMAGE_1D => "TEX_SUB_IMAGE_1D"
  | TEX_SUB_IMAGE_2D => "TEX_SUB_IMAGE_2D"
  | TEX_SUB_IMAGE_3D => "TEX_SUB_IMAGE_3D"
  | UNMAP_BUFFER => "UNMAP_BUFFER"
  | VALIDATE_PROGRAM => "VALIDATE_PROGRAM"
  end%string.

(** What the [type] member of a command can hold.  The declaration of the
    enumeration ([OpenGL/types_enums.h]) is not among the sources at hand, and
    an object of a C++ enumeration type can hold a value that is none of the
    enumerators a [switch] names: [Unrecognized raw] stands for any such
    value, the ones the [default] label catches. *)
Inductive CommandTypeValue :=
| Enumerated (t : CommandType)
| Unrecognized (raw : Z).

(** [OpenGL::BufferDataCommand]: the two members the scheduler reads.
    [buffer_reference_ptr] is an owning pointer and may be null. *)
Record BufferDataCommand := Build_BufferDataCommand
  { buffer_reference_ptr : option GLBufferReference
  ; size                 : GLsizeiptr
  }.

(** The dynamic type of a command object, as far as the scheduler can tell:
    [dynamic_cast<BufferDataCommand*>] succeeds on the first form only. *)
Inductive CommandObject :=
| BufferDataCommandObject (c : BufferDataCommand)
| OtherCommandObject.

(** A command as seen through [CommandBase*]: its tag and the object. *)
Record CommandBase := Build_CommandBase
  { type   : CommandTypeValue
  ; object : CommandObject
  }.

Definition dynamic_cast_BufferDataCommand (c : CommandBase)
  : option BufferDataCommand :=
  match object c with
  | BufferDataCommandObject b => Some b
  | OtherCommandObject => None
  end.

(** [OpenGL::NodeIO(reference, start offset, size)] *)
Record NodeIO := Build_NodeIO
  { reference    : VKBufferReference
  ; start_offset : Z
  ; length       : Z
  }.

(** [OpenGL::VKFrameGraphNodeCreateInfo]: the members the scheduler fills. *)
Record VKFrameGraphNodeCreateInfo := Build_VKFrameGraphNodeCreateInfo
  { inputs      : list NodeIO
  ; outputs     : list NodeIO
  ; command_ptr : option CommandBase
  }.

(** Modelled from the spec: the node classes ([OpenGL/backend/nodes/...]) and
    [VKFrameGraph] are not among the sources at hand.  A node holds the
    ordered input and output bindings (and the command) it was created from;
    the frame graph is the sequence of the nodes handed to [add_node], oldest
    first. *)
Module VKNodes.
Inductive VKFrameGraphNode :=
| BufferData (create_info : VKFrameGraphNodeCreateInfo).
Definition create_info_of (n : VKFrameGraphNode) :=
  match n with BufferData i => i end.
End VKNodes.
Export VKNodes.

Definition VKFrameGraph := list VKFrameGraphNode.

(** ** Traps

    Modelled from the spec: the macros [vkgl_assert], [vkgl_assert_fail] and
    [vkgl_not_implemented] come from [OpenGL/types_macros.h], which is not
    among the sources at hand.  A failed assertion is fatal (the process
    traps); an unported entry point fails loudly through a signal of its own,
    told apart from a failed assertion. *)
Inductive Signal :=
| AssertionFailure
| NotYetSupported.

(** How a piece of scheduler code ends: it returns a value, or it traps; the
    state reached is kept in both cases. *)
Inductive Outcome (S A : Type) :=
| Done (a : A) (s : S)
| Trap (sig : Signal) (s : S).
Arguments Done {S A} _ _.
Arguments Trap {S A} _ _.

Definition Exec (S A : Type) := S -> Outcome S A.

Definition ret {S A} (a : A) : Exec S A := fun s => Done a s.

Definition bind {S A B} (m : Exec S A) (k : A -> Exec S B) : Exec S B :=
  fun s =>
    match m s with
    | Done a s' => k a s'
    | Trap sig s' => Trap sig s'
    end.

Declare Scope exec_scope.
Delimit Scope exec_scope with exec.
Notation "x <- m ;; k" := (bind m (fun x => k))
  (at level 61, m at next level, right associativity) : exec_scope.
Notation "m ;; k" := (bind m (fun _ => k))
  (at level 61, right associativity) : exec_scope.

Definition trap {S A} (sig : Signal) : Exec S A := fun s => Trap sig s.

(** [vkgl_assert(cond)] *)
Definition vkgl_assert {S} (cond : bool) : Exec S unit :=
  if cond then ret tt else trap AssertionFailure.

(** [vkgl_assert_fail()] *)
Definition vkgl_assert_fail {S} : Exec S unit := trap AssertionFailure.

(** [vkgl_not_implemented()] *)
Definition vkgl_not_implemented {S} : Exec S unit := trap NotYetSupported.

(** [vkgl_assert(p != nullptr)] followed by uses of [*p]. *)
Definition vkgl_assert_not_null {S A} (p : option A) : Exec S A :=
  match p with
  | Some a => bind (vkgl_assert true) (fun _ => ret a)
  | None => bind (vkgl_assert false) (fun _ => trap AssertionFailure)
  end.

Definition is_trap {S A} (o : Outcome S A) : bool :=
  match o with Done _ _ => false | Trap _ _ => true end.

(** The state a piece of code ends in, returning or trapping. *)
Definition state_after {S A} (o : Outcome S A) : S :=
  match o with Done _ s => s | Trap _ s => s end.

(** ** The collaborators of the scheduler *)

(** [IVKBufferManager]: the three member functions the scheduler calls.  Each
    may change the manager, whose state has the type [M]; [acquire_object]
    returns an owning pointer, null when no reference could be produced. *)
Class IVKBufferManager (M : Type) := Build_IVKBufferManager
  { acquire_object :
      GLuint -> TimeMarker.t -> TimeMarker.t -> TimeMarker.t ->
      M -> option VKBufferReference * M
  ; get_tot_buffer_time_marker :
      GLuint -> TimeMarker.t -> M -> TimeMarker.t * M
  ; get_tot_memory_block_time_marker :
      GLuint -> TimeMarker.t -> M -> TimeMarker.t * M
  }.

(** One call on the buffer manager: its arguments and what it returned. *)
Inductive ManagerCall :=
| Call_get_tot_buffer_time_marker
    (in_id : GLuint) (in_frontend_creation_time : TimeMarker.t)
    (result : TimeMarker.t)
| Call_get_tot_memory_block_time_marker
    (in_id : GLuint) (in_frontend_creation_time : TimeMarker.t)
    (result : TimeMarker.t)
| Call_acquire_object
    (in_id : GLuint) (in_frontend_creation_time : TimeMarker.t)
    (in_buffer_time in_memory_block_time : TimeMarker.t)
    (result : option VKBufferReference).

(** What the worker thread acts on: the buffer manager, the frame graph and
    the logger ([VKGL::g_logger_ptr], modelled by the messages logged so far),
    together with the record of the calls made on the manager, oldest
    first. *)
Record World (M : Type) := Build_World
  { manager     : M
  ; frame_graph : VKFrameGraph
  ; logged      : list string
  ; calls       : list ManagerCall
  }.
Arguments Build_World {M} _ _ _ _.
Arguments manager {M} _.
Arguments frame_graph {M} _.
Arguments logged {M} _.
Arguments calls {M} _.

(** C++ leaves the order in which the arguments of one call are evaluated
    unspecified.  Two arguments of the call to [acquire_object] are calls
    themselves, so the order is a parameter of the model. *)
Inductive ArgumentOrder :=
| LeftToRight
| RightToLeft.

(** The member functions of [VKScheduler] that [process_command] can call. *)
Module Fn.
Inductive t :=
| process_buffer_data_command | process_buffer_sub_data_command
| process_clear_command | process_compile_shader_command
| process_compressed_tex_image_1D_command
| process_compressed_tex_image_2D_command
| process_compressed_tex_image_3D_command
| process_compressed_tex_sub_image_1D_command
| process_compressed_tex_sub_image_2D_command
| process_compressed_tex_sub_image_3D_command
| process_copy_buffer_sub_data_command
| process_copy_tex_image_1D_command | process_copy_tex_image_2D_command
| process_copy_tex_sub_image_1D_command
| process_copy_tex_sub_image_2D_command
| process_copy_tex_sub_image_3D_command
| process_draw_arrays_command | process_draw_elements_command
| process_draw_range_elements_command
| process_finish_command | process_flush_command
| process_flush_mapped_buffer_range_command
| process_get_buffer_sub_data_command
| process_get_compressed_tex_image_command
| process_get_texture_image_command
| process_link_program_command | process_map_buffer_command
| process_multi_draw_arrays_command | process_multi_draw_elements_command
| process_read_pixels_command
| process_tex_image_1D_command | process_tex_image_2D_command
| process_tex_image_3D_command
| process_tex_sub_image_1D_command | process_tex_sub_image_2D_command
| process_tex_sub_image_3D_command
| process_unmap_buffer_command | process_validate_program_command.

(** The spelling of each member function. *)
Definition name (f : t) : string :=
  match f with
  | process_buffer_data_command => "process_buffer_data_command"
  | process_buffer_sub_data_command => "process_buffer_sub_data_command"
  | process_clear_command => "process_clear_command"
  | process_compile_shader_command => "process_compile_shader_command"
  | process_compressed_tex_image_1D_command => "process_compressed_tex_image_1D_command"
  | process_compressed_tex_image_2D_command => "process_compressed_tex_image_2D_command"
  | process_compressed_tex_image_3D_command => "process_compressed_tex_image_3D_command"
  | process_compressed_tex_sub_image_1D_command => "process_compressed_tex_sub_image_1D_command"
  | process_compressed_tex_sub_image_2D_command => "process_compressed_tex_sub_image_2D_command"
  | process_compressed_tex_sub_image_3D_command => "process_compressed_tex_sub_image_3D_command"
  | process_copy_buffer_sub_data_command => "process_copy_buffer_sub_data_command"
  | process_copy_tex_image_1D_command => "process_copy_tex_image_1D_command"
  | process_copy_tex_image_2D_command => "process_copy_tex_image_2D_command"
  | process_copy_tex_sub_image_1D_command => "process_copy_tex_sub_image_1D_command"
  | process_copy_tex_sub_image_2D_command => "process_copy_tex_sub_image_2D_command"
  | process_copy_tex_sub_image_3D_command => "process_copy_tex_sub_image_3D_command"
  | process_draw_arrays_command => "process_draw_arrays_command"
  | process_draw_elements_command => "process_draw_elements_command"
  | process_draw_range_elements_command => "process_draw_range_elements_command"
  | process_finish_command => "process_finish_command"
  | process_flush_command => "process_flush_command"
  | process_flush_mapped_buffer_range_command => "process_flush_mapped_buffer_range_command"
  | process_get_buffer_sub_data_command => "process_get_buffer_sub_data_command"
  | process_get_compressed_tex_image_command => "process_get_compressed_tex_image_command"
  | process_get_texture_image_command => "process_get_texture_image_command"
  | process_link_program_command => "process_link_program_command"
  | process_map_buffer_command => "process_map_buffer_command"
  | process_multi_draw_arrays_command => "process_multi_draw_arrays_command"
  | process_multi_draw_elements_command => "process_multi_draw_elements_command"
  | process_read_pixels_command => "process_read_pixels_command"
  | process_tex_image_1D_command => "process_tex_image_1D_command"
  | process_tex_image_2D_command => "process_tex_image_2D_command"
  | process_tex_image_3D_command => "process_tex_image_3D_command"
  | process_tex_sub_image_1D_command => "process_tex_sub_image_1D_command"
  | process_tex_sub_image_2D_command => "process_tex_sub_image_2D_command"
  | process_tex_sub_image_3D_command => "process_tex_sub_image_3D_command"
  | process_unmap_buffer_command => "process_unmap_buffer_command"
  | process_validate_program_command => "process_validate_program_command"
  end%string.
End Fn.

(** ** [vk_scheduler.cpp]: the worker thread's side *)

Section Worker.

Context {M : Type} {backend_buffer_manager : IVKBufferManager M}.

(** The order in which the compiler evaluates the arguments of a call. *)
Variable argument_order : ArgumentOrder.

Local Open Scope exec_scope.

Definition Worker := Exec (World M).

(** [VKGL::g_logger_ptr->log(VKGL::LogLevel::Info, msg)] *)
Definition log_info (msg : string) (w : World M) : World M :=
  Build_World (manager w) (frame_graph w) (logged w ++ [msg]) (calls w).

(** [m_backend_buffer_manager_ptr->get_tot_buffer_time_marker(id, time)] *)
Definition call_get_tot_buffer_time_marker
    (in_id : GLuint) (in_time : TimeMarker.t) : Worker TimeMarker.t :=
  fun w =>
    let (r, m') := get_tot_buffer_time_marker in_id in_time (manager w) in
    Done r (Build_World m' (frame_graph w) (logged w)
              (calls w ++ [Call_get_tot_buffer_time_marker in_id in_time r])).

(** [m_backend_buffer_manager_ptr->get_tot_memory_block_time_marker(id, time)] *)
Definition call_get_tot_memory_block_time_marker
    (in_id : GLuint) (in_time : TimeMarker.t) : Worker TimeMarker.t :=
  fun w =>
    let (r, m') := get_tot_memory_block_time_marker in_id in_time (manager w) in
    Done r (Build_World m' (frame_graph w) (logged w)
              (calls w ++ [Call_get_tot_memory_block_time_marker in_id in_time r])).

(** [m_backend_buffer_manager_ptr->acquire_object(id, time, tb, tm)], its
    arguments already evaluated. *)
Definition call_acquire_object
    (in_id : GLuint) (in_time in_buffer_time in_memory_block_time : TimeMarker.t)
  : Worker (option VKBufferReference) :=
  fun w =>
    let (r, m') := acquire_object in_id in_time in_buffer_time
                                  in_memory_block_time (manager w) in
    Done r (Build_World m' (frame_graph w) (logged w)
              (calls w ++ [Call_acquire_object in_id in_time in_buffer_time
                                               in_memory_block_time r])).

(** [m_backend_frame_graph_manager_ptr->add_node(std::move(node_ptr))] *)
Definition add_node (node : VKFrameGraphNode) (w : World M) : World M :=
  Build_World (manager w) (frame_graph w ++ [node]) (logged w) (calls w).

(** Two argument expressions [a] (written first) and [b] (written second)
    of one call, evaluated in the compiler's order. *)
Definition evaluate_arguments {A B} (a : Worker A) (b : Worker B)
  : Worker (A * B) :=
  match argument_order with
  | LeftToRight => x <- a ;; y <- b ;; ret (x, y)
  | RightToLeft => y <- b ;; x <- a ;; ret (x, y)
  end.

(** Step 1 of [process_buffer_data_command], "Retrieve backend buffer
    reference", up to the assignment of [backend_buffer_reference_ptr]. *)
Definition retrieve_backend_buffer_reference
    (frontend_buffer_id : GLuint)
    (frontend_buffer_creation_time : TimeMarker.t)
  : Worker (option VKBufferReference) :=
  markers <- evaluate_arguments
               (call_get_tot_buffer_time_marker
                  frontend_buffer_id frontend_buffer_creation_time)
               (call_get_tot_memory_block_time_marker
                  frontend_buffer_id frontend_buffer_creation_time) ;;
  call_acquire_object frontend_buffer_id frontend_buffer_creation_time
                      (fst markers) (snd markers).

(** The record of the two marker queries of step 1, in the order they are
    made, given what each returned. *)
Definition marker_queries
    (in_id : GLuint) (in_time tb tm : TimeMarker.t) : list ManagerCall :=
  match argument_order with
  | LeftToRight => [ Call_get_tot_buffer_time_marker in_id in_time tb
                   ; Call_get_tot_memory_block_time_marker in_id in_time tm ]
  | RightToLeft => [ Call_get_tot_memory_block_time_marker in_id in_time tm
                   ; Call_get_tot_buffer_time_marker in_id in_time tb ]
  end.

(** [void VKScheduler::process_buffer_data_command(CommandBaseUniquePtr)] *)
Definition process_buffer_data_command (in_command_ptr : CommandBase)
  : Worker unit :=
  command_ptr <- vkgl_assert_not_null
                   (dynamic_cast_BufferDataCommand in_command_ptr) ;;
  buffer_reference <- vkgl_assert_not_null
                        (buffer_reference_ptr command_ptr) ;;
  let frontend_buffer_creation_time :=
    GLBufferPayload.object_creation_time
      (ReferenceBase.get_payload buffer_reference) in
  let frontend_buffer_id :=
    GLBufferPayload.id (ReferenceBase.get_payload buffer_reference) in
  (* 1. Retrieve backend buffer reference *)
  acquired <- retrieve_backend_buffer_reference
                frontend_buffer_id frontend_buffer_creation_time ;;
  backend_buffer_reference <- vkgl_assert_not_null acquired ;;
  (* 2. Spawn the node *)
  let create_info :=
    {| inputs  := [] ++ [ Build_NodeIO
                            (ReferenceBase.clone backend_buffer_reference)
                            0 (size command_ptr) ]
     ; outputs := [] ++ [ Build_NodeIO
                            (ReferenceBase.clone backend_buffer_reference)
                            0 (size command_ptr) ]
     ; command_ptr := Some in_command_ptr |} in
  let node_ptr := VKNodes.BufferData create_info in
  (* 3. Submit the node to frame graph manager. *)
  fun w => Done tt (add_node node_ptr w).

(** The other handlers.  None reads its parameter, so the
    [dynamic_cast] that [process_command] applies to the argument of most
    of them is left out. *)
Definition process_buffer_sub_data_command (_ : CommandBase) : Worker unit :=
  vkgl_not_implemented.
Definition process_clear_command (_ : CommandBase) : Worker unit :=
  vkgl_not_implemented.
Definition process_compile_shader_command (_ : CommandBase) : Worker unit :=
  vkgl_not_implemented.
Definition process_compressed_tex_image_1D_command (_ : CommandBase) : Worker unit :=
  vkgl_not_implemented.
Definition process_compressed_tex_image_2D_command (_ : CommandBase) : Worker unit :=
  vkgl_not_implemented.
Definition process_compressed_tex_image_3D_command (_ : CommandBase) : Worker unit :=
  vkgl_not_implemented.
Definition process_compressed_tex_sub_image_1D_command (_ : CommandBase) : Worker unit :=
  vkgl_not_implemented.
Definition process_compressed_tex_sub_image_2D_command (_ : CommandBase) : Worker unit :=
  vkgl_not_implemented.
Definition process_compressed_tex_sub_image_3D_command (_ : CommandBase) : Worker unit :=
  vkgl_not_implemented.
Definition process_copy_buffer_sub_data_command (_ : CommandBase) : Worker unit :=
  vkgl_not_implemented.
Definition process_copy_tex_image_1D_command (_ : CommandBase) : Worker unit :=
  vkgl_not_implemented.
Definition process_copy_tex_image_2D_command (_ : CommandBase) : Worker unit :=
  vkgl_not_implemented.
Definition process_copy_tex_sub_image_1D_command (_ : CommandBase) : Worker unit :=
  vkgl_not_implemented.
Definition process_copy_tex_sub_image_2D_command (_ : CommandBase) : Worker unit :=
  vkgl_not_implemented.
Definition process_copy_tex_sub_image_3D_command (_ : CommandBase) : Worker unit :=
  vkgl_not_implemented.
Definition process_draw_arrays_command (_ : CommandBase) : Worker unit :=
  vkgl_not_implemented.
Definition process_draw_elements_command (_ : CommandBase) : Worker unit :=
  vkgl_not_implemented.
Definition process_draw_range_elements_command (_ : CommandBase) : Worker unit :=
  vkgl_not_implemented.
Definition process_finish_command (_ : CommandBase) : Worker unit :=
  vkgl_not_implemented.
Definition process_flush_command (_ : CommandBase) : Worker unit :=
  vkgl_not_implemented.
Definition process_flush_mapped_buffer_range_command (_ : CommandBase) : Worker unit :=
  vkgl_not_implemented.
Definition process_get_buffer_sub_data_command (_ : CommandBase) : Worker unit :=
  vkgl_not_implemented.
Definition process_get_compressed_tex_image_command (_ : CommandBase) : Worker unit :=
  vkgl_not_implemented.
Definition process_get_texture_image_command (_ : CommandBase) : Worker unit :=
  vkgl_not_implemented.
Definition process_link_program_command (_ : CommandBase) : Worker unit :=
  vkgl_not_implemented.
Definition process_map_buffer_command (_ : CommandBase) : Worker unit :=
  vkgl_not_implemented.
Definition process_multi_draw_arrays_command (_ : CommandBase) : Worker unit :=
  vkgl_not_implemented.
Definition process_multi_draw_elements_command (_ : CommandBase) : Worker unit :=
  vkgl_not_implemented.
Definition process_read_pixels_command (_ : CommandBase) : Worker unit :=
  vkgl_not_implemented.
Definition process_tex_image_1D_command (_ : CommandBase) : Worker unit :=
  vkgl_not_implemented.
Definition process_tex_image_2D_command (_ : CommandBase) : Worker unit :=
  vkgl_not_implemented.
Definition process_tex_image_3D_command (_ : CommandBase) : Worker unit :=
  vkgl_not_implemented.
Definition process_tex_sub_image_1D_command (_ : CommandBase) : Worker unit :=
  vkgl_not_implemented.
Definition process_tex_sub_image_2D_command (_ : CommandBase) : Worker unit :=
  vkgl_not_implemented.
Definition process_tex_sub_image_3D_command (_ : CommandBase) : Worker unit :=
  vkgl_not_implemented.
Definition process_unmap_buffer_command (_ : CommandBase) : Worker unit :=
  vkgl_not_implemented.
Definition process_validate_program_command (_ : CommandBase) : Worker unit :=
  vkgl_not_implemented.

(** The body of each member function. *)
Definition call (f : Fn.t) : CommandBase -> Worker unit :=
  match f with
  | Fn.process_buffer_data_command => process_buffer_data_command
  | Fn.process_buffer_sub_data_command => process_buffer_sub_data_command
  | Fn.process_clear_command => process_clear_command
  | Fn.process_compile_shader_command => process_compile_shader_command
  | Fn.process_compressed_tex_image_1D_command => process_compressed_tex_image_1D_command
  | Fn.process_compressed_tex_image_2D_command => process_compressed_tex_image_2D_command
  | Fn.process_compressed_tex_image_3D_command => process_compressed_tex_image_3D_command
  | Fn.process_compressed_tex_sub_image_1D_command => process_compressed_tex_sub_image_1D_command
  | Fn.process_compressed_tex_sub_image_2D_command => process_compressed_tex_sub_image_2D_command
  | Fn.process_compressed_tex_sub_image_3D_command => process_compressed_tex_sub_image_3D_command
  | Fn.process_copy_buffer_sub_data_command => process_copy_buffer_sub_data_command
  | Fn.process_copy_tex_image_1D_command => process_copy_tex_image_1D_command
  | Fn.process_copy_tex_image_2D_command => process_copy_tex_image_2D_command
  | Fn.process_copy_tex_sub_image_1D_command => process_copy_tex_sub_image_1D_command
  | Fn.process_copy_tex_sub_image_2D_command => process_copy_tex_sub_image_2D_command
  | Fn.process_copy_tex_sub_image_3D_command => process_copy_tex_sub_image_3D_command
  | Fn.process_draw_arrays_command => process_draw_arrays_command
  | Fn.process_draw_elements_command => process_draw_elements_command
  | Fn.process_draw_range_elements_command => process_draw_range_elements_command
  | Fn.process_finish_command => process_finish_command
  | Fn.process_flush_command => process_flush_command
  | Fn.process_flush_mapped_buffer_range_command => process_flush_mapped_buffer_range_command
  | Fn.process_get_buffer_sub_data_command => process_get_buffer_sub_data_command
  | Fn.process_get_compressed_tex_image_command => process_get_compressed_tex_image_command
  | Fn.process_get_texture_image_command => process_get_texture_image_command
  | Fn.process_link_program_command => process_link_program_command
  | Fn.process_map_buffer_command => process_map_buffer_command
  | Fn.process_multi_draw_arrays_command => process_multi_draw_arrays_command
  | Fn.process_multi_draw_elements_command => process_multi_draw_elements_command
  | Fn.process_read_pixels_command => process_read_pixels_command
  | Fn.process_tex_image_1D_command => process_tex_image_1D_command
  | Fn.process_tex_image_2D_command => process_tex_image_2D_command
  | Fn.process_tex_image_3D_command => process_tex_image_3D_command
  | Fn.process_tex_sub_image_1D_command => process_tex_sub_image_1D_command
  | Fn.process_tex_sub_image_2D_command => process_tex_sub_image_2D_command
  | Fn.process_tex_sub_image_3D_command => process_tex_sub_image_3D_command
  | Fn.process_unmap_buffer_command => process_unmap_buffer_command
  | Fn.process_validate_program_command => process_validate_program_command
  end.

(** The [case] labels of the [switch] in [process_command]: the member
    function each one calls. *)
Definition switch_case (t : CommandType) : Fn.t :=
  match t with
  | BUFFER_DATA => Fn.process_buffer_data_command
  | BUFFER_SUB_DATA => Fn.process_buffer_sub_data_command
  | CLEAR => Fn.process_clear_command
  | COMPILE_SHADER => Fn.process_compile_shader_command
  | COMPRESSED_TEX_IMAGE_1D => Fn.process_compressed_tex_image_1D_command
  | COMPRESSED_TEX_IMAGE_2D => Fn.process_compressed_tex_image_2D_command
  | COMPRESSED_TEX_IMAGE_3D => Fn.process_compressed_tex_image_3D_command
  | COMPRESSED_TEX_SUB_IMAGE_1D => Fn.process_compressed_tex_sub_image_1D_command
  | COMPRESSED_TEX_SUB_IMAGE_2D => Fn.process_compressed_tex_sub_image_2D_command
  | COMPRESSED_TEX_SUB_IMAGE_3D => Fn.process_compressed_tex_sub_image_3D_command
  | COPY_BUFFER_SUB_DATA => Fn.process_copy_buffer_sub_data_command
  | COPY_TEX_IMAGE_1D => Fn.process_copy_tex_image_1D_command
  | COPY_TEX_IMAGE_2D => Fn.process_copy_tex_image_2D_command
  | COPY_TEX_SUB_IMAGE_1D => Fn.process_copy_tex_sub_image_1D_command
  | COPY_TEX_SUB_IMAGE_2D => Fn.process_copy_tex_sub_image_2D_command
  | COPY_TEX_SUB_IMAGE_3D => Fn.process_copy_tex_sub_image_3D_command
  | DRAW_ARRAYS => Fn.process_draw_arrays_command
  | DRAW_ELEMENTS => Fn.process_draw_elements_command
  | DRAW_RANGE_ELEMENTS => Fn.process_draw_range_elements_command
  | FINISH => Fn.process_finish_command
  | FLUSH => Fn.process_flush_command
  | FLUSH_MAPPED_BUFFER_RANGE => Fn.process_flush_mapped_buffer_range_command
  | GET_BUFFER_SUB_DATA => Fn.process_get_buffer_sub_data_command
  | GET_COMPRESSED_TEX_IMAGE => Fn.process_get_compressed_tex_image_command
  | GET_TEXTURE_IMAGE => Fn.process_get_texture_image_command
  | LINK_PROGRAM => Fn.process_link_program_command
  | MAP_BUFFER => Fn.process_map_buffer_command
  | MULTI_DRAW_ARRAYS => Fn.process_multi_draw_arrays_command
  | MULTI_DRAW_ELEMENTS => Fn.process_multi_draw_elements_command
  | READ_PIXELS => Fn.process_read_pixels_command
  | TEX_IMAGE_1D => Fn.process_tex_image_1D_command
  | TEX_IMAGE_2D => Fn.process_tex_image_2D_command
  | TEX_IMAGE_3D => Fn.process_tex_image_3D_command
  | TEX_SUB_IMAGE_1D => Fn.process_tex_sub_image_1D_command
  | TEX_SUB_IMAGE_2D => Fn.process_tex_sub_image_2D_command
  | TEX_SUB_IMAGE_3D => Fn.process_tex_sub_image_3D_command
  | UNMAP_BUFFER => Fn.process_unmap_buffer_command
  | VALIDATE_PROGRAM => Fn.process_validate_program_command
  end.

(** Where the [switch] goes for a value of [in_command_ptr->type]: to a
    [case] label, or ([None]) to the [default] label. *)
Definition switch_on (v : CommandTypeValue) : option Fn.t :=
  match v with
  | Enumerated t => Some (switch_case t)
  | Unrecognized _ => None
  end.

(** [void VKScheduler::process_command(CommandBaseUniquePtr)] *)
Definition process_command (in_command_ptr : CommandBase) : Worker unit :=
  match switch_on (type in_command_ptr) with
  | Some f => call f in_command_ptr
  | None => vkgl_assert_fail
  end.

(** One turn of the worker's loop, seen from outside: what
    [grab_with_timeout] hands back ([None] when it times out) and what
    [m_terminating.load()] yields, or would yield, during that turn.  The
    command ring buffer and the flag are shared with other threads, so both
    values are inputs. *)
Record Tick := Build_Tick
  { grab_with_timeout  : option CommandBase
  ; m_terminating_load : bool
  }.

(** Where the worker thread stands once the turns it was given are used
    up. *)
Inductive ThreadState :=
| Looping (w : World M)               (* still inside the loop *)
| Returned (w : World M)              (* left the loop and returned *)
| Trapped (sig : Signal) (w : World M). (* a handler trapped *)

(** The [do { ... } while (true);] of [main_thread_entrypoint]. *)
Fixpoint do_while_true (ticks : list Tick) (w : World M) : ThreadState :=
  match ticks with
  | [] => Looping w
  | tick :: later =>
      match grab_with_timeout tick with
      | None =>
          (* Time-out occurred *)
          if m_terminating_load tick
          then Returned w                      (* break *)
          else do_while_true later w           (* continue *)
      | Some command_ptr =>
          match process_command command_ptr w with
          | Done _ w' => do_while_true later w'
          | Trap sig w' => Trapped sig w'
          end
      end
  end.

Definition thread_started : string := "VK scheduler thread started.".
Definition thread_quitting : string := "VK scheduler thread quitting now.".

(** [void VKScheduler::main_thread_entrypoint()] *)
Definition main_thread_entrypoint (ticks : list Tick) (w : World M)
  : ThreadState :=
  match do_while_true ticks (log_info thread_started w) with
  | Looping w' => Looping w'
  | Returned w' => Returned (log_info thread_quitting w')
  | Trapped sig w' => Trapped sig w'
  end.

(** The commands handed to [process_command] during the given turns. *)
Definition dequeued (ticks : list Tick) : list CommandBase :=
  flat_map (fun tick => match grab_with_timeout tick with
                        | Some c => [c]
                        | None => []
                        end) ticks.

(** [process_command] on each command in turn, up to the first trap. *)
Fixpoint process_commands (cs : list CommandBase) : Worker unit :=
  match cs with
  | [] => ret tt
  | c :: cs' => process_command c ;; process_commands cs'
  end.

(** A turn on which the loop is left. *)
Definition is_final (tick : Tick) : bool :=
  match grab_with_timeout tick with
  | None => m_terminating_load tick
  | Some _ => false
  end.

(** A turn after which the loop goes on, unless a handler traps. *)
Definition stays_in_loop (tick : Tick) : bool := negb (is_final tick).

End Worker.

(** ** [vk_scheduler.cpp]: the owning thread's side *)

(** Modelled from the spec: [VKGL::RingBuffer] is not among the sources at
    hand.  It is a first-in first-out queue with room for two to the power
    of its constructor argument commands.  [stash] adds at the producer side
    and has no result ([None]) while the queue is full; [grab_with_timeout]
    takes the oldest command, or times out on an empty queue. *)
Module RingBuffer.
Record t := Build
  { capacity_log_2 : Z
  ; items          : list CommandBase
  }.
Definition create (in_capacity_log_2 : Z) : t := Build in_capacity_log_2 [].
Definition capacity (q : t) : Z := 2 ^ capacity_log_2 q.
Definition stash (c : CommandBase) (q : t) : option t :=
  if Z.of_nat (List.length (items q)) <? capacity q
  then Some (Build (capacity_log_2 q) (items q ++ [c]))
  else None.
Definition grab_with_timeout (q : t) : option CommandBase * t :=
  match items q with
  | [] => (None, q)
  | c :: later => (Some c, Build (capacity_log_2 q) later)
  end.
End RingBuffer.

Definition N_MAX_SCHEDULED_COMMANDS_LOG_2 : Z := 16.
Definition WAIT_PERIOD_MS : Z := 1000.

(** A [std::thread] object: its thread can still be joined, or has been. *)
Inductive Thread :=
| Joinable
| Joined.

(** The members of [VKScheduler] that the lifecycle functions touch; the two
    smart pointers may be null. *)
Record VKScheduler := Build_VKScheduler
  { m_command_ring_buffer_ptr : option RingBuffer.t
  ; m_scheduler_thread_ptr    : option Thread
  ; m_terminating             : bool
  }.

(** The steps of a scheduler's life that matter to the order of its
    teardown, recorded as they are performed. *)
Inductive Step :=
| NewRingBuffer
| SpawnThread
| SetTerminating
| JoinThread
| ReleaseRingBuffer.

Definition Lifecycle := Exec (list Step).

Definition perform (st : Step) : Lifecycle unit :=
  fun done => Done tt (done ++ [st]).

Section Lifecycle.

Local Open Scope exec_scope.

(** [VKScheduler::VKScheduler(frontend, backend buffer manager, frame graph)] *)
Definition constructor (in_frontend_ptr in_backend_buffer_manager_ptr : ptr)
  : Lifecycle VKScheduler :=
  let self := {| m_command_ring_buffer_ptr := None
               ; m_scheduler_thread_ptr    := None
               ; m_terminating             := false |} in
  vkgl_assert (negb (in_backend_buffer_manager_ptr =? 0)) ;;
  vkgl_assert (negb (in_frontend_ptr =? 0)) ;;
  ret self.

(** [VKScheduler::~VKScheduler()] *)
Definition destructor (self : VKScheduler) : Lifecycle VKScheduler :=
  (* Set a terminate flag and wait for the scheduler thread to quit *)
  self <- match m_scheduler_thread_ptr self with
          | Some _ =>
              perform SetTerminating ;;
              perform JoinThread ;;
              ret {| m_command_ring_buffer_ptr := m_command_ring_buffer_ptr self
                   ; m_scheduler_thread_ptr    := Some Joined
                   ; m_terminating             := true |}
          | None => ret self
          end ;;
  (* Only after the thread dies, can we release the ring buffer instance. *)
  perform ReleaseRingBuffer ;;
  ret {| m_command_ring_buffer_ptr := None
       ; m_scheduler_thread_ptr    := m_scheduler_thread_ptr self
       ; m_terminating             := m_terminating self |}.

(** Whether each [new] expression of [create] and [init] yields an object;
    the code tests every one of the three results against [nullptr]. *)
Record Allocations := Build_Allocations
  { new_scheduler   : bool
  ; new_ring_buffer : bool
  ; new_thread      : bool
  }.

(** [bool VKScheduler::init()] *)
Definition init (alloc : Allocations) (self : VKScheduler)
  : Lifecycle (bool * VKScheduler) :=
  (* 1. Instantiate the ring buffer. *)
  perform NewRingBuffer ;;
  let self :=
    {| m_command_ring_buffer_ptr :=
         if new_ring_buffer alloc
         then Some (RingBuffer.create N_MAX_SCHEDULED_COMMANDS_LOG_2)
         else None
     ; m_scheduler_thread_ptr := m_scheduler_thread_ptr self
     ; m_terminating          := m_terminating self |} in
  match m_command_ring_buffer_ptr self with
  | None =>
      vkgl_assert false ;;
      ret (false, self)                                  (* goto end *)
  | Some _ =>
      (* 2. Spawn the scheduler's main thread.. *)
      perform SpawnThread ;;
      let self :=
        {| m_command_ring_buffer_ptr := m_command_ring_buffer_ptr self
         ; m_scheduler_thread_ptr :=
             if new_thread alloc then Some Joinable else None
         ; m_terminating := m_terminating self |} in
      match m_scheduler_thread_ptr self with
      | None =>
          vkgl_assert false ;;
          ret (false, self)                              (* goto end *)
      | Some _ => ret (true, self)                       (* Done! *)
      end
  end.

(** [VKSchedulerUniquePtr VKScheduler::create(...)]; the result is null
    ([None]) or owns the new scheduler. *)
Definition create (alloc : Allocations)
    (in_frontend_ptr in_backend_buffer_manager_ptr : ptr)
  : Lifecycle (option VKScheduler) :=
  if new_scheduler alloc
  then
    self <- constructor in_frontend_ptr in_backend_buffer_manager_ptr ;;
    r <- init alloc self ;;
    if fst r
    then ret (Some (snd r))
    else (destructor (snd r) ;; ret None)                (* result_ptr.reset() *)
  else ret None.

(** [void VKScheduler::submit(CommandBaseUniquePtr)], run on an
    application thread.  The result tells whether [stash] took the command;
    on a full ring buffer it did not. *)
Definition submit (in_command_ptr : CommandBase) : Exec VKScheduler bool :=
  fun self =>
    match m_command_ring_buffer_ptr self with
    | None => Trap AssertionFailure self
    | Some ring_buffer =>
        match RingBuffer.stash in_command_ptr ring_buffer with
        | Some ring_buffer' =>
            Done true {| m_command_ring_buffer_ptr := Some ring_buffer'
                       ; m_scheduler_thread_ptr := m_scheduler_thread_ptr self
                       ; m_terminating := m_terminating self |}
        | None => Done false self
        end
    end.

End Lifecycle.

(** The turns of a worker that finds the commands of [q] waiting while no
    producer adds any: one successful [grab_with_timeout] for each, oldest
    first. *)
Fixpoint grab_each (turns : nat) (q : RingBuffer.t) (flag : bool) : list Tick :=
  match turns with
  | O => []
  | S turns' =>
      match RingBuffer.grab_with_timeout q with
      | (Some c, q') => Build_Tick (Some c) flag :: grab_each turns' q' flag
      | (None, _) => []
      end
  end.

Definition draining (q : RingBuffer.t) (flag : bool) : list Tick :=
  grab_each (List.length (RingBuffer.items q)) q flag.

(** ** Buffer managers to run the scheduler against *)

Module Example.

(** A manager whose state is a clock and a switch.  Each query returns the
    clock's value and advances it; [acquire_object] produces a reference
    from its arguments, or none once the switch is off. *)
Record Scripted := Build_Scripted
  { clock     : Z
  ; producing : bool
  }.

#[global] Instance scripted_manager : IVKBufferManager Scripted :=
  {| acquire_object := fun in_id in_time in_tb in_tm m =>
       ( if producing m
         then Some (ReferenceBase.Build
                      (VKBufferPayload.make in_id in_time
                         (4096 + clock m) in_tb (8192 + clock m) in_tm))
         else None
       , Build_Scripted (clock m + 1) (producing m) )
   ; get_tot_buffer_time_marker := fun _ _ m =>
       (clock m, Build_Scripted (clock m + 1) (producing m))
   ; get_tot_memory_block_time_marker := fun _ _ m =>
       (clock m, Build_Scripted (clock m + 1) (producing m))
  |}.

Definition world (m : Scripted) : World Scripted := Build_World m [] [] [].

(** A fresh world whose manager produces references, and one whose manager
    produces none. *)
Definition serving : World Scripted := world (Build_Scripted 7 true).
Definition exhausted : World Scripted := world (Build_Scripted 7 false).

(** The payload of frontend buffer 7 created at marker 100, and that of
    the buffer that reuses id 7 after it, created at marker 200; the backend
    markers and pointers agree. *)
Definition seven_at_100 : VKBufferPayload.t :=
  VKBufferPayload.make 7 100 4096 11 8192 12.
Definition seven_at_200 : VKBufferPayload.t :=
  VKBufferPayload.make 7 200 4096 11 8192 12.

(** A buffer-data command for frontend buffer 3, created at marker 100,
    with [in_size] bytes of data. *)
Definition buffer_data (in_size : GLsizeiptr) : CommandBase :=
  {| type := Enumerated BUFFER_DATA
   ; object := BufferDataCommandObject
       {| buffer_reference_ptr :=
            Some (ReferenceBase.Build (GLBufferPayload.Build 3 100 101))
        ; size := in_size |} |}.

(** A scheduler as [create] hands it out: the ring buffer is empty and the
    worker thread runs. *)
Definition started : VKScheduler :=
  {| m_command_ring_buffer_ptr :=
       Some (RingBuffer.create N_MAX_SCHEDULED_COMMANDS_LOG_2)
   ; m_scheduler_thread_ptr := Some Joinable
   ; m_terminating := false |}.

Definition clear : CommandBase :=
  {| type := Enumerated CLEAR; object := OtherCommandObject |}.

Definition stray : CommandBase :=
  {| type := Unrecognized 38; object := OtherCommandObject |}.

End Example.

(** ** Naming of the handlers

    The member function meant for a tag is the one named after it:
    [process_], the tag in lower case (the [D] of a dimension such as [2D]
    stays a capital), then [_command]. *)
Definition is_digit (a : ascii) : bool :=
  (48 <=? nat_of_ascii a)%nat && (nat_of_ascii a <=? 57)%nat.

Definition lower_case (a : ascii) : ascii :=
  if (65 <=? nat_of_ascii a)%nat && (nat_of_ascii a <=? 90)%nat
  then ascii_of_nat (nat_of_ascii a + 32)
  else a.

Fixpoint snake_case (after_digit : bool) (s : string) : string :=
  match s with
  | EmptyString => EmptyString
  | String a s' =>
      String (if after_digit then a else lower_case a)
             (snake_case (is_digit a) s')
  end.

Definition handler_named_after (t : CommandType) : string :=
  ("process_" ++ snake_case false (CommandType_name t) ++ "_command")%string.

(** ** Observations on outcomes, threads and commands *)

(** The signal a piece of code trapped with, if it trapped. *)
Definition signal_of {S A} (o : Outcome S A) : option Signal :=
  match o with Done _ _ => None | Trap sig _ => Some sig end.

(** The world the worker thread has reached. *)
Definition world_of {M : Type} (st : ThreadState (M := M)) : World M :=
  match st with
  | Looping w => w
  | Returned w => w
  | Trapped _ w => w
  end.

(** Whether the worker thread is still inside its loop. *)
Definition is_looping {M : Type} (st : ThreadState (M := M)) : bool :=
  match st with Looping _ => true | _ => false end.

(** The input and output bindings of a node. *)
Definition bindings (n : VKFrameGraphNode) : list NodeIO * list NodeIO :=
  (inputs (create_info_of n), outputs (create_info_of n)).

(** The same command, its buffer reference (if it is a buffer-data command
    holding one) carrying another snapshot marker [time_marker]. *)
Definition with_snapshot_time (c : CommandBase) (t : TimeMarker.t)
  : CommandBase :=
  match object c with
  | BufferDataCommandObject
      {| buffer_reference_ptr := Some r; size := in_size |} =>
      {| type := type c
       ; object := BufferDataCommandObject
           {| buffer_reference_ptr :=
                Some (ReferenceBase.Build
                        (GLBufferPayload.Build
                           (GLBufferPayload.id (ReferenceBase.get_payload r))
                           (GLBufferPayload.object_creation_time
                              (ReferenceBase.get_payload r))
                           t))
            ; size := in_size |} |}
  | _ => c
  end.

(** A second buffer manager to run the scheduler against: its two marker
    queries read a table entry and leave the manager as it is;
    [acquire_object] counts the references it has handed out. *)
Module Ledger.

Record t := Build
  { buffer_marker       : TimeMarker.t
  ; memory_block_marker : TimeMarker.t
  ; handed_out          : Z
  }.

#[global] Instance ledger_manager : IVKBufferManager t :=
  {| acquire_object := fun in_id in_time in_tb in_tm m =>
       ( Some (ReferenceBase.Build
                 (VKBufferPayload.make in_id in_time
                    (4096 + handed_out m) in_tb (8192 + handed_out m) in_tm))
       , Build (buffer_marker m) (memory_block_marker m) (handed_out m + 1) )
   ; get_tot_buffer_time_marker := fun _ _ m => (buffer_marker m, m)
   ; get_tot_memory_block_time_marker := fun _ _ m => (memory_block_marker m, m)
  |}.

Definition fresh : World t := Build_World (Build 11 12 0) [] [] [].

End Ledger.

(** Several calls of [submit] in a row from one application thread, stopping
    at the first command the ring buffer does not take. *)
Fixpoint submit_all (cs : list CommandBase) (self : VKScheduler)
  : Outcome VKScheduler bool :=
  match cs with
  | [] => Done true self
  | c :: cs' =>
      match submit c self with
      | Done true self' => submit_all cs' self'
      | Done false self' => Done false self'
      | Trap sig self' => Trap sig self'
      end
  end.

(** * Properties *)

(** ** The comparison operators of [VKBufferPayload] *)

Section PayloadComparison.

Import VKBufferPayload.

Lemma marker_eq_true (a b : TimeMarker.t) :
  TimeMarker.operator_eq a b = true <-> a = b.
Proof. unfold TimeMarker.operator_eq. apply Z.eqb_eq. Qed.

Lemma operator_eq_true (a b : t) :
  operator_eq a b = true <->
  id a = id b
  /\ backend_buffer_creation_time_marker a = backend_buffer_creation_time_marker b
  /\ backend_mem_block_creation_time_marker a = backend_mem_block_creation_time_marker b
  /\ frontend_object_creation_time_marker a = frontend_object_creation_time_marker b.
Proof.
  unfold operator_eq.
  unfold TimeMarker.operator_eq.
  rewrite !andb_true_iff, !Z.eqb_eq.
  tauto.
Qed.

Lemma operator_eq_with_pointers (a b : t) (ba ma bb mb : ptr) :
  operator_eq (with_pointers a ba ma) (with_pointers b bb mb) = operator_eq a b.
Proof. reflexivity. Qed.

Lemma operator_ne_with_pointers (a b : t) (ba ma bb mb : ptr) :
  operator_ne (with_pointers a ba ma) (with_pointers b bb mb) = operator_ne a b.
Proof. reflexivity. Qed.

Lemma with_own_pointers (a : t) :
  with_pointers a (buffer_ptr a) (memory_block_ptr a) = a.
Proof. destruct a; reflexivity. Qed.

(** C1. [operator==] answers [true] exactly when the two payloads have the
    same id and the same three time markers; payloads with the same id whose
    frontend creation markers differ compare unequal. *)
Theorem operator_eq_compares_id_and_markers (a b : t) :
  (operator_eq a b = true <->
     id a = id b
     /\ frontend_object_creation_time_marker a = frontend_object_creation_time_marker b
     /\ backend_buffer_creation_time_marker a = backend_buffer_creation_time_marker b
     /\ backend_mem_block_creation_time_marker a = backend_mem_block_creation_time_marker b)
  /\ (id a = id b ->
      frontend_object_creation_time_marker a <> frontend_object_creation_time_marker b ->
      operator_eq a b = false).
Proof.
  split.
  - rewrite operator_eq_true. tauto.
  - intros _ Hdiff.
    destruct (operator_eq a b) eqn:E; [ | reflexivity ].
    apply operator_eq_true in E. tauto.
Qed.

Lemma operator_eq_compares_id_and_markers_witness :
  operator_eq Example.seven_at_100 Example.seven_at_100 = true
  /\ operator_eq Example.seven_at_100 Example.seven_at_200 = false.
Proof.
  split.
  - apply (proj1 (operator_eq_compares_id_and_markers Example.seven_at_100 Example.seven_at_100)).
    repeat split; reflexivity.
  - apply (proj2 (operator_eq_compares_id_and_markers Example.seven_at_100 Example.seven_at_200)).
    + reflexivity.
    + simpl. lia.
Defined.

(** C9. The two pointer fields have no part in the comparison: replacing
    them, in either operand, changes the result of neither operator, and
    payloads that agree on the id and the three markers compare equal
    whatever their pointers are. *)
Theorem comparison_ignores_pointers (a b : t) (ba ma bb mb : ptr) :
  operator_eq (with_pointers a ba ma) (with_pointers b bb mb) = operator_eq a b
  /\ operator_ne (with_pointers a ba ma) (with_pointers b bb mb) = operator_ne a b
  /\ (id a = id b ->
      frontend_object_creation_time_marker a = frontend_object_creation_time_marker b ->
      backend_buffer_creation_time_marker a = backend_buffer_creation_time_marker b ->
      backend_mem_block_creation_time_marker a = backend_mem_block_creation_time_marker b ->
      operator_eq (with_pointers a ba ma) (with_pointers b bb mb) = true
      /\ operator_ne (with_pointers a ba ma) (with_pointers b bb mb) = false).
Proof.
  split; [ apply operator_eq_with_pointers | ].
  split; [ apply operator_ne_with_pointers | ].
  intros Hid Hf Hb Hm.
  rewrite operator_eq_with_pointers, operator_ne_with_pointers.
  unfold operator_ne, operator_eq, TimeMarker.operator_ne, TimeMarker.operator_eq.
  rewrite Hid, Hf, Hb, Hm, !Z.eqb_refl. split; reflexivity.
Qed.

Lemma comparison_ignores_pointers_witness :
  operator_eq (with_pointers Example.seven_at_100 1 2) (with_pointers Example.seven_at_100 3 4) = true
  /\ operator_ne (with_pointers Example.seven_at_100 1 2) (with_pointers Example.seven_at_100 3 4) = false.
Proof.
  apply (proj2 (proj2 (comparison_ignores_pointers Example.seven_at_100 Example.seven_at_100 1 2 3 4)));
    reflexivity.
Defined.

(** C10. [operator!=] is the negation of [operator==] on every pair of
    payloads. *)
Theorem operator_ne_negates_operator_eq (a b : t) :
  operator_ne a b = negb (operator_eq a b).
Proof.
  unfold operator_ne, operator_eq, TimeMarker.operator_ne.
  rewrite !negb_andb. reflexivity.
Qed.

End PayloadComparison.


(** ** Command dispatch *)

Section Dispatch.

Context {M : Type} {backend_buffer_manager : IVKBufferManager M}.
Variable argument_order : ArgumentOrder.

Lemma switch_case_named_after_tag (t : CommandType) :
  Fn.name (switch_case t) = handler_named_after t.
Proof. destruct t; vm_compute; reflexivity. Qed.

Lemma switch_case_injective (t t' : CommandType) :
  switch_case t = switch_case t' -> t = t'.
Proof. destruct t, t'; intros H; try reflexivity; discriminate H. Qed.

Lemma process_command_enumerated (t : CommandType) (c : CommandBase) :
  type c = Enumerated t ->
  process_command argument_order c = call argument_order (switch_case t) c.
Proof. intros H. unfold process_command. rewrite H. reflexivity. Qed.

Lemma process_command_unrecognized (raw : Z) (c : CommandBase) (w : World M) :
  type c = Unrecognized raw ->
  process_command argument_order c w = Trap AssertionFailure w.
Proof. intros H. unfold process_command. rewrite H. reflexivity. Qed.

Lemma process_command_stub (t : CommandType) (c : CommandBase) (w : World M) :
  t <> BUFFER_DATA ->
  type c = Enumerated t ->
  process_command argument_order c w = Trap NotYetSupported w.
Proof.
  intros Ht Hc. rewrite (process_command_enumerated t c Hc).
  destruct t; try reflexivity. contradiction Ht; reflexivity.
Qed.

End Dispatch.



(** C8.  A command whose tag is an enumerator other than [BUFFER_DATA] ends
    in the not-yet-supported trap, which is not the assertion-failure trap;
    processing it never returns, and it leaves the frame graph (and the rest
    of the world) as it was. *)
Theorem unported_command_fails_loudly
    (M : Type) (mgr : IVKBufferManager M) (order : ArgumentOrder)
    (t : CommandType) (c : CommandBase) (w : World M) :
  t <> BUFFER_DATA ->
  type c = Enumerated t ->
  process_command order c w = Trap NotYetSupported w
  /\ NotYetSupported <> AssertionFailure
  /\ (forall (sig : Signal) (w' : World M),
        process_command order c w = Trap sig w' ->
        sig <> AssertionFailure /\ frame_graph w' = frame_graph w)
  /\ (forall w' : World M, process_command order c w <> Done tt w').
Proof.
  intros Ht Hc.
  pose proof (process_command_stub order t c w Ht Hc) as E.
  split; [ exact E | ].
  split; [ discriminate | ].
  split.
  - intros sig w' E'. rewrite E in E'. inversion E'; subst.
    split; [ discriminate | reflexivity ].
  - intros w' E'. rewrite E in E'. discriminate E'.
Qed.

Lemma unported_command_fails_loudly_witness :
  process_command LeftToRight Example.clear
    Example.serving
  = Trap NotYetSupported Example.serving.
Proof.
  apply (unported_command_fails_loudly Example.Scripted _ LeftToRight
           CLEAR Example.clear).
  - discriminate.
  - reflexivity.
Defined.

(** ** The buffer-data handler *)

Section BufferData.

Context {M : Type} {backend_buffer_manager : IVKBufferManager M}.
Variable argument_order : ArgumentOrder.

(** Step 1 always returns; it makes the two marker queries and then the call
    to [acquire_object], and touches neither the frame graph nor the log. *)
Lemma retrieve_backend_buffer_reference_returns
    (in_id : GLuint) (in_time : TimeMarker.t) (w : World M) :
  exists (tb tm : TimeMarker.t) (r : option VKBufferReference) (w1 : World M),
    retrieve_backend_buffer_reference argument_order in_id in_time w = Done r w1
    /\ frame_graph w1 = frame_graph w
    /\ logged w1 = logged w
    /\ calls w1 = calls w ++ marker_queries argument_order in_id in_time tb tm
                          ++ [Call_acquire_object in_id in_time tb tm r].
Proof.
  unfold retrieve_backend_buffer_reference, evaluate_arguments, marker_queries,
    bind, ret, call_acquire_object, call_get_tot_buffer_time_marker,
    call_get_tot_memory_block_time_marker.
  destruct argument_order; simpl.
  - destruct (get_tot_buffer_time_marker in_id in_time (manager w))
      as [tb m1] eqn:E1; simpl.
    destruct (get_tot_memory_block_time_marker in_id in_time m1)
      as [tm m2] eqn:E2; simpl.
    destruct (acquire_object in_id in_time tb tm m2) as [r m3] eqn:E3.
    exists tb, tm, r. eexists. split; [ reflexivity | ]. simpl.
    repeat split. rewrite <- !app_assoc. reflexivity.
  - destruct (get_tot_memory_block_time_marker in_id in_time (manager w))
      as [tm m1] eqn:E1; simpl.
    destruct (get_tot_buffer_time_marker in_id in_time m1)
      as [tb m2] eqn:E2; simpl.
    destruct (acquire_object in_id in_time tb tm m2) as [r m3] eqn:E3.
    exists tb, tm, r. eexists. split; [ reflexivity | ]. simpl.
    repeat split. rewrite <- !app_assoc. reflexivity.
Qed.

(** The handler, once its command is known to be a buffer-data command that
    holds a buffer reference: everything hinges on what step 1 retrieves. *)
Lemma process_buffer_data_command_steps
    (c : CommandBase) (b : BufferDataCommand) (r : GLBufferReference)
    (w : World M) :
  dynamic_cast_BufferDataCommand c = Some b ->
  buffer_reference_ptr b = Some r ->
  process_buffer_data_command argument_order c w =
  match retrieve_backend_buffer_reference argument_order
          (GLBufferPayload.id (ReferenceBase.get_payload r))
          (GLBufferPayload.object_creation_time (ReferenceBase.get_payload r)) w
  with
  | Done (Some ref) w1 =>
      Done tt
        (add_node
           (VKNodes.BufferData
              {| inputs  := [Build_NodeIO (ReferenceBase.clone ref) 0 (size b)]
               ; outputs := [Build_NodeIO (ReferenceBase.clone ref) 0 (size b)]
               ; command_ptr := Some c |}) w1)
  | Done None w1 => Trap AssertionFailure w1
  | Trap sig w1 => Trap sig w1
  end.
Proof.
  intros Hc Hr. unfold process_buffer_data_command.
  rewrite Hc. unfold vkgl_assert_not_null at 1. unfold bind at 1. simpl.
  rewrite Hr. unfold bind at 1. simpl.
  unfold bind at 1.
  destruct (retrieve_backend_buffer_reference argument_order _ _ w)
    as [[ref | ] w1 | sig w1]; reflexivity.
Qed.

(** A handler that returns was given a buffer-data command holding a buffer
    reference. *)
Lemma process_buffer_data_command_done
    (c : CommandBase) (w w' : World M) :
  process_buffer_data_command argument_order c w = Done tt w' ->
  exists (b : BufferDataCommand) (r : GLBufferReference),
    dynamic_cast_BufferDataCommand c = Some b /\ buffer_reference_ptr b = Some r.
Proof.
  unfold process_buffer_data_command, bind. intros H.
  destruct (dynamic_cast_BufferDataCommand c) as [b | ] eqn:Hc;
    simpl in H; [ | discriminate H ].
  destruct (buffer_reference_ptr b) as [r | ] eqn:Hr;
    simpl in H; [ | discriminate H ].
  exists b, r. split; [ reflexivity | exact Hr ].
Qed.

End BufferData.

(** C7, as the code has it.  While a buffer-data command is processed the
    scheduler queries both backend markers, each once and in the order the
    compiler gives to the evaluation of arguments, and calls [acquire_object]
    after them; the three calls carry the id and creation marker of the
    command's buffer reference, and [acquire_object] receives what the two
    queries returned.  Under left-to-right evaluation the buffer marker is
    queried first. *)
Theorem buffer_data_manager_calls
    (M : Type) (mgr : IVKBufferManager M) (order : ArgumentOrder)
    (c : CommandBase) (w w' : World M) :
  type c = Enumerated BUFFER_DATA ->
  process_command order c w = Done tt w' ->
  exists (b : BufferDataCommand) (r : GLBufferReference)
         (tb tm : TimeMarker.t) (ref : VKBufferReference),
    dynamic_cast_BufferDataCommand c = Some b
    /\ buffer_reference_ptr b = Some r
    /\ let in_id := GLBufferPayload.id (ReferenceBase.get_payload r) in
       let in_time :=
         GLBufferPayload.object_creation_time (ReferenceBase.get_payload r) in
       calls w' = calls w ++ marker_queries order in_id in_time tb tm
                          ++ [Call_acquire_object in_id in_time tb tm (Some ref)]
       /\ (order = LeftToRight ->
           calls w' = calls w
                      ++ [ Call_get_tot_buffer_time_marker in_id in_time tb
                         ; Call_get_tot_memory_block_time_marker in_id in_time tm
                         ; Call_acquire_object in_id in_time tb tm (Some ref) ]).
Proof.
  intros Ht H.
  rewrite (process_command_enumerated order BUFFER_DATA c Ht) in H.
  simpl in H.
  destruct (process_buffer_data_command_done order c w w' H) as [b [r [Hc Hr]]].
  rewrite (process_buffer_data_command_steps order c b r w Hc Hr) in H.
  destruct (retrieve_backend_buffer_reference_returns order
              (GLBufferPayload.id (ReferenceBase.get_payload r))
              (GLBufferPayload.object_creation_time (ReferenceBase.get_payload r)) w)
    as [tb [tm [res [w1 [E [_ [_ Hcalls]]]]]]].
  rewrite E in H.
  destruct res as [ref | ]; [ | discriminate H ].
  inversion H; subst w'; clear H.
  exists b, r, tb, tm, ref.
  split; [ exact Hc | ]. split; [ exact Hr | ].
  simpl. split; [ exact Hcalls | ].
  intros Ho. rewrite Hcalls, Ho. reflexivity.
Qed.

Lemma buffer_data_manager_calls_witness :
  let c := Example.buffer_data 128 in
  let w := Example.serving in
  let w' := state_after (process_command LeftToRight c w) in
  (type c = Enumerated BUFFER_DATA /\ process_command LeftToRight c w = Done tt w')
  /\ exists (b : BufferDataCommand) (r : GLBufferReference)
            (tb tm : TimeMarker.t) (ref : VKBufferReference),
       dynamic_cast_BufferDataCommand c = Some b
       /\ buffer_reference_ptr b = Some r
       /\ let in_id := GLBufferPayload.id (ReferenceBase.get_payload r) in
          let in_time :=
            GLBufferPayload.object_creation_time (ReferenceBase.get_payload r) in
          calls w' = calls w ++ marker_queries LeftToRight in_id in_time tb tm
                             ++ [Call_acquire_object in_id in_time tb tm (Some ref)]
          /\ (LeftToRight = LeftToRight ->
              calls w' = calls w
                         ++ [ Call_get_tot_buffer_time_marker in_id in_time tb
                            ; Call_get_tot_memory_block_time_marker in_id in_time tm
                            ; Call_acquire_object in_id in_time tb tm (Some ref) ]).
Proof.
  intros c w w'.
  assert (Ht : type c = Enumerated BUFFER_DATA) by reflexivity.
  assert (Hp : process_command LeftToRight c w = Done tt w')
    by (vm_compute; reflexivity).
  split; [ split; assumption | ].
  exact (buffer_data_manager_calls Example.Scripted _ LeftToRight c w w' Ht Hp).
Defined.

(** C7, as stated, fails: where the compiler evaluates arguments from right
    to left, the memory-block marker is queried before the buffer marker. *)
Lemma memory_block_marker_queried_first :
  ~ (forall (order : ArgumentOrder) (c : CommandBase)
            (w w' : World Example.Scripted),
        type c = Enumerated BUFFER_DATA ->
        process_command order c w = Done tt w' ->
        exists in_id in_time tb tm res,
          calls w' = calls w
                     ++ [ Call_get_tot_buffer_time_marker in_id in_time tb
                        ; Call_get_tot_memory_block_time_marker in_id in_time tm
                        ; Call_acquire_object in_id in_time tb tm res ]).
Proof.
  intros H.
  assert (Hp : process_command RightToLeft (Example.buffer_data 128)
                 Example.serving
               = Done tt (state_after
                            (process_command RightToLeft
                               (Example.buffer_data 128) Example.serving)))
    by (vm_compute; reflexivity).
  destruct (H RightToLeft (Example.buffer_data 128) Example.serving _
              eq_refl Hp)
    as [in_id [in_time [tb [tm [res E]]]]].
  vm_compute in E. discriminate E.
Qed.

(** ** The worker's loop *)

Section Loop.

Context {M : Type} {backend_buffer_manager : IVKBufferManager M}.
Variable argument_order : ArgumentOrder.

(** Over turns none of which leaves the loop, the loop hands every dequeued
    command to [process_command], in order, until one traps. *)
Lemma do_while_true_app (before after : list Tick) (w : World M) :
  forallb stays_in_loop before = true ->
  do_while_true argument_order (before ++ after) w =
  match process_commands argument_order (dequeued before) w with
  | Done _ w' => do_while_true argument_order after w'
  | Trap sig w' => Trapped sig w'
  end.
Proof.
  revert w. induction before as [ | tick before IH ]; intros w Hnf.
  - reflexivity.
  - simpl in Hnf. apply andb_true_iff in Hnf. destruct Hnf as [Hn Hnf].
    unfold stays_in_loop, is_final in Hn. simpl.
    destruct (grab_with_timeout tick) as [c | ] eqn:Hg.
    + simpl. unfold bind.
      destruct (process_command argument_order c w) as [[] w' | sig w'].
      * apply IH. exact Hnf.
      * reflexivity.
    + destruct (m_terminating_load tick); [ discriminate Hn | ].
      simpl. apply IH. exact Hnf.
Qed.

Lemma do_while_true_not_final (ticks : list Tick) (w : World M) :
  forallb stays_in_loop ticks = true ->
  do_while_true argument_order ticks w =
  match process_commands argument_order (dequeued ticks) w with
  | Done _ w' => Looping w'
  | Trap sig w' => Trapped sig w'
  end.
Proof.
  intros Hnf. rewrite <- (app_nil_r ticks) at 1.
  rewrite (do_while_true_app ticks [] w Hnf).
  destruct (process_commands argument_order (dequeued ticks) w); reflexivity.
Qed.

(** The loop is left only on a turn on which [grab_with_timeout] timed out and
    the terminating flag was found set. *)
Lemma do_while_true_returned (ticks : list Tick) (w w' : World M) :
  do_while_true argument_order ticks w = Returned w' ->
  exists (before : list Tick) (tick : Tick) (after : list Tick),
    ticks = before ++ tick :: after
    /\ forallb stays_in_loop before = true
    /\ grab_with_timeout tick = None
    /\ m_terminating_load tick = true
    /\ process_commands argument_order (dequeued before) w = Done tt w'.
Proof.
  revert w. induction ticks as [ | tick later IH ]; intros w H.
  - discriminate H.
  - simpl in H.
    destruct (grab_with_timeout tick) as [c | ] eqn:Hg.
    + destruct (process_command argument_order c w) as [[] w1 | sig w1] eqn:Hp;
        [ | discriminate H ].
      destruct (IH w1 H) as [before [tick' [after [E [Hnf [Hg' [Ht' Hpc]]]]]]].
      exists (tick :: before), tick', after.
      split; [ rewrite E; reflexivity | ].
      split; [ simpl; unfold stays_in_loop at 1, is_final; rewrite Hg; exact Hnf | ].
      split; [ exact Hg' | ]. split; [ exact Ht' | ].
      simpl. rewrite Hg. simpl. unfold bind. rewrite Hp. exact Hpc.
    + destruct (m_terminating_load tick) eqn:Ht.
      * inversion H; subst w'.
        exists [], tick, later. repeat split; assumption.
      * destruct (IH w H) as [before [tick' [after [E [Hnf [Hg' [Ht' Hpc]]]]]]].
        exists (tick :: before), tick', after.
        split; [ rewrite E; reflexivity | ].
        split; [ simpl; unfold stays_in_loop at 1, is_final; rewrite Hg, Ht; exact Hnf | ].
        split; [ exact Hg' | ]. split; [ exact Ht' | ].
        simpl. rewrite Hg. exact Hpc.
Qed.

End Loop.

(** C5.  The worker returns from its loop only on a turn on which
    [grab_with_timeout] timed out and the terminating flag was found set, every
    command dequeued before that turn having been processed, in order.  A
    time-out that finds the flag unset starts the next turn.  A dequeued
    command goes to [process_command] whatever the flag holds, and over turns
    that do not leave the loop all dequeued commands are processed in order,
    up to a trap if one occurs. *)
Theorem worker_loop_exit_and_dispatch
    (M : Type) (mgr : IVKBufferManager M) (order : ArgumentOrder)
    (ticks : list Tick) (w : World M) :
  (forall w' : World M,
      main_thread_entrypoint order ticks w = Returned w' ->
      exists (before : list Tick) (tick : Tick) (after : list Tick)
             (w1 : World M),
        ticks = before ++ tick :: after
        /\ forallb stays_in_loop before = true
        /\ grab_with_timeout tick = None
        /\ m_terminating_load tick = true
        /\ process_commands order (dequeued before) (log_info thread_started w)
           = Done tt w1
        /\ w' = log_info thread_quitting w1)
  /\ do_while_true order (Build_Tick None false :: ticks) w
     = do_while_true order ticks w
  /\ do_while_true order (Build_Tick None true :: ticks) w = Returned w
  /\ (forall (flag : bool) (c : CommandBase),
        do_while_true order (Build_Tick (Some c) flag :: ticks) w
        = match process_command order c w with
          | Done _ w1 => do_while_true order ticks w1
          | Trap sig w1 => Trapped sig w1
          end)
  /\ (forallb stays_in_loop ticks = true ->
      main_thread_entrypoint order ticks w
      = match process_commands order (dequeued ticks) (log_info thread_started w)
        with
        | Done _ w1 => Looping w1
        | Trap sig w1 => Trapped sig w1
        end).
Proof.
  split; [ | split; [ reflexivity | split; [ reflexivity | split ] ] ].
  - intros w' H. unfold main_thread_entrypoint in H.
    destruct (do_while_true order ticks (log_info thread_started w))
      as [w1 | w1 | sig w1] eqn:E; try discriminate H.
    inversion H; subst w'; clear H.
    destruct (do_while_true_returned order ticks _ _ E)
      as [before [tick [after [Et [Hnf [Hg [Ht Hpc]]]]]]].
    exists before, tick, after, w1. repeat split; assumption.
  - intros flag c. reflexivity.
  - intros Hnf. unfold main_thread_entrypoint.
    rewrite (do_while_true_not_final order ticks _ Hnf).
    destruct (process_commands order (dequeued ticks) (log_info thread_started w));
      reflexivity.
Qed.

Lemma worker_loop_exit_and_dispatch_witness :
  let busy := Build_Tick (Some (Example.buffer_data 128)) true in
  let idle := Build_Tick None false in
  let last := Build_Tick None true in
  let w := Example.serving in
  (exists w' : World Example.Scripted,
      main_thread_entrypoint LeftToRight [idle; busy; last; busy] w = Returned w'
      /\ exists before tick after w1,
           [idle; busy; last; busy] = before ++ tick :: after
           /\ forallb stays_in_loop before = true
           /\ grab_with_timeout tick = None
           /\ m_terminating_load tick = true
           /\ process_commands LeftToRight (dequeued before)
                (log_info thread_started w) = Done tt w1
           /\ w' = log_info thread_quitting w1)
  /\ (forallb stays_in_loop [idle; busy] = true
      /\ main_thread_entrypoint LeftToRight [idle; busy] w
         = match process_commands LeftToRight (dequeued [idle; busy])
                   (log_info thread_started w)
           with
           | Done _ w1 => Looping w1
           | Trap sig w1 => Trapped sig w1
           end).
Proof.
  intros busy idle last w. split.
  - exists (match main_thread_entrypoint LeftToRight [idle; busy; last; busy] w
            with Returned w' => w' | _ => w end).
    assert (H : main_thread_entrypoint LeftToRight [idle; busy; last; busy] w
                = Returned
                    (match main_thread_entrypoint LeftToRight
                             [idle; busy; last; busy] w
                     with Returned w' => w' | _ => w end))
      by (vm_compute; reflexivity).
    split; [ exact H | ].
    exact (proj1 (worker_loop_exit_and_dispatch Example.Scripted _ LeftToRight
                    [idle; busy; last; busy] w) _ H).
  - split; [ reflexivity | ].
    apply (worker_loop_exit_and_dispatch Example.Scripted _ LeftToRight
             [idle; busy] w).
    reflexivity.
Defined.

(** ** What the buffer-data handler adds to the frame graph *)

Section BufferDataNode.

Context {M : Type} {backend_buffer_manager : IVKBufferManager M}.
Variable argument_order : ArgumentOrder.

Lemma process_buffer_data_command_adds_node
    (c : CommandBase) (w w' : World M) :
  type c = Enumerated BUFFER_DATA ->
  process_command argument_order c w = Done tt w' ->
  exists (b : BufferDataCommand) (r : GLBufferReference)
         (ref : VKBufferReference) (w1 : World M) (node : VKFrameGraphNode),
    dynamic_cast_BufferDataCommand c = Some b
    /\ buffer_reference_ptr b = Some r
    /\ retrieve_backend_buffer_reference argument_order
         (GLBufferPayload.id (ReferenceBase.get_payload r))
         (GLBufferPayload.object_creation_time (ReferenceBase.get_payload r)) w
       = Done (Some ref) w1
    /\ (exists tb tm : TimeMarker.t,
          calls w' = calls w
                     ++ marker_queries argument_order
                          (GLBufferPayload.id (ReferenceBase.get_payload r))
                          (GLBufferPayload.object_creation_time
                             (ReferenceBase.get_payload r)) tb tm
                     ++ [Call_acquire_object
                           (GLBufferPayload.id (ReferenceBase.get_payload r))
                           (GLBufferPayload.object_creation_time
                              (ReferenceBase.get_payload r)) tb tm (Some ref)])
    /\ frame_graph w' = frame_graph w ++ [node]
    /\ inputs (create_info_of node)
       = [Build_NodeIO (ReferenceBase.clone ref) 0 (size b)]
    /\ outputs (create_info_of node)
       = [Build_NodeIO (ReferenceBase.clone ref) 0 (size b)]
    /\ command_ptr (create_info_of node) = Some c.
Proof.
  intros Ht H.
  rewrite (process_command_enumerated argument_order BUFFER_DATA c Ht) in H.
  simpl in H.
  destruct (process_buffer_data_command_done argument_order c w w' H)
    as [b [r [Hc Hr]]].
  rewrite (process_buffer_data_command_steps argument_order c b r w Hc Hr) in H.
  destruct (retrieve_backend_buffer_reference_returns argument_order
              (GLBufferPayload.id (ReferenceBase.get_payload r))
              (GLBufferPayload.object_creation_time (ReferenceBase.get_payload r)) w)
    as [tb [tm [res [w1 [E [Hfg [_ Hcalls]]]]]]].
  rewrite E in H.
  destruct res as [ref | ]; [ | discriminate H ].
  inversion H; subst w'; clear H.
  exists b, r, ref, w1. eexists.
  split; [ exact Hc | ]. split; [ exact Hr | ]. split; [ exact E | ].
  split; [ exists tb, tm; exact Hcalls | ].
  split; [ simpl; rewrite Hfg; reflexivity | ].
  repeat split.
Qed.

Lemma process_buffer_data_command_returns
    (c : CommandBase) (b : BufferDataCommand) (r : GLBufferReference)
    (ref : VKBufferReference) (w w1 : World M) :
  type c = Enumerated BUFFER_DATA ->
  dynamic_cast_BufferDataCommand c = Some b ->
  buffer_reference_ptr b = Some r ->
  retrieve_backend_buffer_reference argument_order
    (GLBufferPayload.id (ReferenceBase.get_payload r))
    (GLBufferPayload.object_creation_time (ReferenceBase.get_payload r)) w
  = Done (Some ref) w1 ->
  exists w' : World M, process_command argument_order c w = Done tt w'.
Proof.
  intros Ht Hc Hr E.
  rewrite (process_command_enumerated argument_order BUFFER_DATA c Ht). simpl.
  rewrite (process_buffer_data_command_steps argument_order c b r w Hc Hr), E.
  eexists. reflexivity.
Qed.

Lemma process_buffer_data_command_null_reference
    (c : CommandBase) (b : BufferDataCommand) (r : GLBufferReference)
    (w w1 : World M) :
  type c = Enumerated BUFFER_DATA ->
  dynamic_cast_BufferDataCommand c = Some b ->
  buffer_reference_ptr b = Some r ->
  retrieve_backend_buffer_reference argument_order
    (GLBufferPayload.id (ReferenceBase.get_payload r))
    (GLBufferPayload.object_creation_time (ReferenceBase.get_payload r)) w
  = Done None w1 ->
  process_command argument_order c w = Trap AssertionFailure w1
  /\ frame_graph w1 = frame_graph w.
Proof.
  intros Ht Hc Hr E.
  rewrite (process_command_enumerated argument_order BUFFER_DATA c Ht). simpl.
  rewrite (process_buffer_data_command_steps argument_order c b r w Hc Hr), E.
  split; [ reflexivity | ].
  destruct (retrieve_backend_buffer_reference_returns argument_order
              (GLBufferPayload.id (ReferenceBase.get_payload r))
              (GLBufferPayload.object_creation_time (ReferenceBase.get_payload r)) w)
    as [tb [tm [res [w1' [E' [Hfg _]]]]]].
  rewrite E in E'. inversion E'; subst. exact Hfg.
Qed.

(** Two commands submitted in a row to a scheduler whose ring buffer was just
    created are both taken, and the worker then finds them waiting in the
    order of submission. *)
Lemma submit_twice (c1 c2 : CommandBase) (s0 : VKScheduler) (flag : bool) :
  m_command_ring_buffer_ptr s0
  = Some (RingBuffer.create N_MAX_SCHEDULED_COMMANDS_LOG_2) ->
  exists (s1 s2 : VKScheduler) (rb : RingBuffer.t),
    submit c1 s0 = Done true s1
    /\ submit c2 s1 = Done true s2
    /\ m_command_ring_buffer_ptr s2 = Some rb
    /\ draining rb flag = [Build_Tick (Some c1) flag; Build_Tick (Some c2) flag].
Proof.
  intros H0. unfold submit. rewrite H0. simpl.
  eexists. eexists. eexists.
  split; [ reflexivity | ]. simpl.
  split; [ reflexivity | ]. simpl.
  split; reflexivity.
Qed.

End BufferDataNode.

(** C2.  A processed buffer-data command of size [S] adds one node to the
    frame graph; the node has one input and one output binding, each starting
    at offset 0, of length [S], and holding a clone of the reference that
    [acquire_object] returned for this command.  The command is processed
    whenever that reference is not null.  Two such commands submitted in a row
    leave two nodes in the frame graph, in the order of submission. *)
Theorem buffer_data_adds_one_node
    (M : Type) (mgr : IVKBufferManager M) (order : ArgumentOrder) :
  (forall (c : CommandBase) (w w' : World M),
      type c = Enumerated BUFFER_DATA ->
      process_command order c w = Done tt w' ->
      exists (b : BufferDataCommand) (r : GLBufferReference)
             (ref : VKBufferReference) (w1 : World M) (node : VKFrameGraphNode),
        dynamic_cast_BufferDataCommand c = Some b
        /\ buffer_reference_ptr b = Some r
        /\ retrieve_backend_buffer_reference order
             (GLBufferPayload.id (ReferenceBase.get_payload r))
             (GLBufferPayload.object_creation_time (ReferenceBase.get_payload r)) w
           = Done (Some ref) w1
        /\ (exists tb tm : TimeMarker.t,
              calls w' = calls w
                         ++ marker_queries order
                              (GLBufferPayload.id (ReferenceBase.get_payload r))
                              (GLBufferPayload.object_creation_time
                                 (ReferenceBase.get_payload r)) tb tm
                         ++ [Call_acquire_object
                               (GLBufferPayload.id (ReferenceBase.get_payload r))
                               (GLBufferPayload.object_creation_time
                                  (ReferenceBase.get_payload r)) tb tm (Some ref)])
        /\ frame_graph w' = frame_graph w ++ [node]
        /\ inputs (create_info_of node)
           = [Build_NodeIO (ReferenceBase.clone ref) 0 (size b)]
        /\ outputs (create_info_of node)
           = [Build_NodeIO (ReferenceBase.clone ref) 0 (size b)]
        /\ command_ptr (create_info_of node) = Some c)
  /\ (forall (c : CommandBase) (b : BufferDataCommand) (r : GLBufferReference)
             (ref : VKBufferReference) (w w1 : World M),
        type c = Enumerated BUFFER_DATA ->
        dynamic_cast_BufferDataCommand c = Some b ->
        buffer_reference_ptr b = Some r ->
        retrieve_backend_buffer_reference order
          (GLBufferPayload.id (ReferenceBase.get_payload r))
          (GLBufferPayload.object_creation_time (ReferenceBase.get_payload r)) w
        = Done (Some ref) w1 ->
        exists w' : World M, process_command order c w = Done tt w')
  /\ (forall (c1 c2 : CommandBase) (s0 : VKScheduler) (flag : bool)
             (w w1 w2 : World M),
        m_command_ring_buffer_ptr s0
        = Some (RingBuffer.create N_MAX_SCHEDULED_COMMANDS_LOG_2) ->
        type c1 = Enumerated BUFFER_DATA ->
        type c2 = Enumerated BUFFER_DATA ->
        process_command order c1 w = Done tt w1 ->
        process_command order c2 w1 = Done tt w2 ->
        exists (s1 s2 : VKScheduler) (rb : RingBuffer.t)
               (n1 n2 : VKFrameGraphNode),
          submit c1 s0 = Done true s1
          /\ submit c2 s1 = Done true s2
          /\ m_command_ring_buffer_ptr s2 = Some rb
          /\ do_while_true order (draining rb flag) w = Looping w2
          /\ frame_graph w2 = frame_graph w ++ [n1; n2]
          /\ command_ptr (create_info_of n1) = Some c1
          /\ command_ptr (create_info_of n2) = Some c2).
Proof.
  split; [ | split ].
  - intros c w w' Ht H.
    exact (process_buffer_data_command_adds_node order c w w' Ht H).
  - intros c b r ref w w1.
    apply process_buffer_data_command_returns.
  - intros c1 c2 s0 flag w w1 w2 H0 Ht1 Ht2 H1 H2.
    destruct (submit_twice c1 c2 s0 flag H0) as [s1 [s2 [rb [E1 [E2 [Erb Ed]]]]]].
    destruct (process_buffer_data_command_adds_node order c1 w w1 Ht1 H1)
      as [_ [_ [_ [_ [n1 [_ [_ [_ [_ [Hfg1 [_ [_ Hp1]]]]]]]]]]]].
    destruct (process_buffer_data_command_adds_node order c2 w1 w2 Ht2 H2)
      as [_ [_ [_ [_ [n2 [_ [_ [_ [_ [Hfg2 [_ [_ Hp2]]]]]]]]]]]].
    exists s1, s2, rb, n1, n2.
    split; [ exact E1 | ]. split; [ exact E2 | ]. split; [ exact Erb | ].
    split; [ rewrite Ed; simpl; rewrite H1, H2; reflexivity | ].
    split; [ rewrite Hfg2, Hfg1, <- app_assoc; reflexivity | ].
    split; assumption.
Qed.

Lemma buffer_data_adds_one_node_witness :
  let c := Example.buffer_data 128 in
  let w := Example.serving in
  let w1 := state_after (process_command LeftToRight c w) in
  let w2 := state_after (process_command LeftToRight c w1) in
  let s0 := Example.started in
  (process_command LeftToRight c w = Done tt w1
   /\ process_command LeftToRight c w1 = Done tt w2)
  /\ (exists (b : BufferDataCommand) (r : GLBufferReference)
             (ref : VKBufferReference) (w' : World Example.Scripted)
             (node : VKFrameGraphNode),
        dynamic_cast_BufferDataCommand c = Some b
        /\ buffer_reference_ptr b = Some r
        /\ retrieve_backend_buffer_reference LeftToRight
             (GLBufferPayload.id (ReferenceBase.get_payload r))
             (GLBufferPayload.object_creation_time (ReferenceBase.get_payload r)) w
           = Done (Some ref) w'
        /\ (exists tb tm : TimeMarker.t,
              calls w1 = calls w
                         ++ marker_queries LeftToRight
                              (GLBufferPayload.id (ReferenceBase.get_payload r))
                              (GLBufferPayload.object_creation_time
                                 (ReferenceBase.get_payload r)) tb tm
                         ++ [Call_acquire_object
                               (GLBufferPayload.id (ReferenceBase.get_payload r))
                               (GLBufferPayload.object_creation_time
                                  (ReferenceBase.get_payload r)) tb tm (Some ref)])
        /\ frame_graph w1 = frame_graph w ++ [node]
        /\ inputs (create_info_of node)
           = [Build_NodeIO (ReferenceBase.clone ref) 0 (size b)]
        /\ outputs (create_info_of node)
           = [Build_NodeIO (ReferenceBase.clone ref) 0 (size b)]
        /\ command_ptr (create_info_of node) = Some c)
  /\ (exists w' : World Example.Scripted,
        process_command LeftToRight c w = Done tt w')
  /\ (exists (s1 s2 : VKScheduler) (rb : RingBuffer.t)
             (n1 n2 : VKFrameGraphNode),
        submit c s0 = Done true s1
        /\ submit c s1 = Done true s2
        /\ m_command_ring_buffer_ptr s2 = Some rb
        /\ do_while_true LeftToRight (draining rb false) w = Looping w2
        /\ frame_graph w2 = frame_graph w ++ [n1; n2]
        /\ command_ptr (create_info_of n1) = Some c
        /\ command_ptr (create_info_of n2) = Some c).
Proof.
  intros c w w1 w2 s0.
  assert (H1 : process_command LeftToRight c w = Done tt w1)
    by (vm_compute; reflexivity).
  assert (H2 : process_command LeftToRight c w1 = Done tt w2)
    by (vm_compute; reflexivity).
  pose proof (buffer_data_adds_one_node Example.Scripted _ LeftToRight)
    as [Hone [Hreturns Htwo]].
  split; [ split; assumption | ].
  split; [ apply (Hone c w w1); [ reflexivity | exact H1 ] | ].
  split.
  - eapply (Hreturns c _ _ _ w _).
    + reflexivity.
    + reflexivity.
    + reflexivity.
    + vm_compute. reflexivity.
  - apply (Htwo c c s0 false w w1 w2).
    + reflexivity.
    + reflexivity.
    + reflexivity.
    + exact H1.
    + exact H2.
Defined.

(** C3, as the code has it.  When [acquire_object] returns a null reference
    for a buffer-data command, the handler's [vkgl_assert] fails: processing
    ends in the assertion-failure trap, no node has been added to the frame
    graph, and the worker's loop ends in that trap whatever commands were to
    follow. *)
Theorem acquire_failure_is_fatal
    (M : Type) (mgr : IVKBufferManager M) (order : ArgumentOrder)
    (c : CommandBase) (b : BufferDataCommand) (r : GLBufferReference)
    (w w1 : World M) :
  type c = Enumerated BUFFER_DATA ->
  dynamic_cast_BufferDataCommand c = Some b ->
  buffer_reference_ptr b = Some r ->
  retrieve_backend_buffer_reference order
    (GLBufferPayload.id (ReferenceBase.get_payload r))
    (GLBufferPayload.object_creation_time (ReferenceBase.get_payload r)) w
  = Done None w1 ->
  process_command order c w = Trap AssertionFailure w1
  /\ frame_graph w1 = frame_graph w
  /\ (forall (flag : bool) (later : list Tick),
        do_while_true order (Build_Tick (Some c) flag :: later) w
        = Trapped AssertionFailure w1).
Proof.
  intros Ht Hc Hr E.
  destruct (process_buffer_data_command_null_reference order c b r w w1
              Ht Hc Hr E) as [Hp Hfg].
  split; [ exact Hp | ]. split; [ exact Hfg | ].
  intros flag later. simpl. rewrite Hp. reflexivity.
Qed.

Lemma acquire_failure_is_fatal_witness :
  let c := Example.buffer_data 128 in
  let w := Example.exhausted in
  let w1 := state_after (retrieve_backend_buffer_reference LeftToRight 3 100 w) in
  retrieve_backend_buffer_reference LeftToRight 3 100 w = Done None w1
  /\ process_command LeftToRight c w = Trap AssertionFailure w1
  /\ frame_graph w1 = frame_graph w
  /\ (forall (flag : bool) (later : list Tick),
        do_while_true LeftToRight (Build_Tick (Some c) flag :: later) w
        = Trapped AssertionFailure w1).
Proof.
  intros c w w1.
  assert (E : retrieve_backend_buffer_reference LeftToRight 3 100 w
              = Done None w1) by (vm_compute; reflexivity).
  split; [ exact E | ].
  eapply (acquire_failure_is_fatal Example.Scripted _ LeftToRight c _ _ w w1).
  - reflexivity.
  - reflexivity.
  - reflexivity.
  - exact E.
Defined.

(** C3, as stated, fails: a null reference from [acquire_object] is not
    turned into a failure of that one command.  The handler traps, and the
    worker does not go on to the command that follows. *)
Lemma acquire_failure_stops_the_worker :
  let c := Example.buffer_data 128 in
  let w := Example.exhausted in
  (exists w1, retrieve_backend_buffer_reference LeftToRight 3 100 w = Done None w1)
  /\ is_trap (process_command LeftToRight c w) = true
  /\ (exists w1, main_thread_entrypoint LeftToRight
                   [ Build_Tick (Some c) false
                   ; Build_Tick (Some Example.clear) false
                   ; Build_Tick None true ] w
                 = Trapped AssertionFailure w1)
  /\ ~ (forall (c : CommandBase) (b : BufferDataCommand) (r : GLBufferReference)
               (w w1 : World Example.Scripted),
          type c = Enumerated BUFFER_DATA ->
          dynamic_cast_BufferDataCommand c = Some b ->
          buffer_reference_ptr b = Some r ->
          retrieve_backend_buffer_reference LeftToRight
            (GLBufferPayload.id (ReferenceBase.get_payload r))
            (GLBufferPayload.object_creation_time (ReferenceBase.get_payload r)) w
          = Done None w1 ->
          is_trap (process_command LeftToRight c w) = false).
Proof.
  intros c w.
  split; [ eexists; vm_compute; reflexivity | ].
  split; [ vm_compute; reflexivity | ].
  split; [ eexists; vm_compute; reflexivity | ].
  intros H.
  assert (E : is_trap (process_command LeftToRight c w) = false).
  { eapply (H c _ _ w _).
    - reflexivity.
    - reflexivity.
    - reflexivity.
    - vm_compute. reflexivity. }
  vm_compute in E. discriminate E.
Qed.

(** ** Construction and destruction of the scheduler *)

Section Teardown.

(** The steps the destructor performs, by whether a worker thread exists. *)
Lemma destructor_steps (self : VKScheduler) (past : list Step) :
  destructor self past =
  match m_scheduler_thread_ptr self with
  | Some _ =>
      Done {| m_command_ring_buffer_ptr := None
            ; m_scheduler_thread_ptr := Some Joined
            ; m_terminating := true |}
           (past ++ [SetTerminating; JoinThread; ReleaseRingBuffer])
  | None =>
      Done {| m_command_ring_buffer_ptr := None
            ; m_scheduler_thread_ptr := None
            ; m_terminating := m_terminating self |}
           (past ++ [ReleaseRingBuffer])
  end.
Proof.
  unfold destructor, bind, perform, ret.
  destruct (m_scheduler_thread_ptr self) as [th | ] eqn:E; simpl.
  - rewrite <- !app_assoc. reflexivity.
  - rewrite E. reflexivity.
Qed.

(** [create] hands out a scheduler only with its ring buffer allocated and
    its worker thread spawned. *)
Lemma create_some (alloc : Allocations) (fp mp : ptr) (past past' : list Step)
    (s : VKScheduler) :
  create alloc fp mp past = Done (Some s) past' ->
  m_command_ring_buffer_ptr s
  = Some (RingBuffer.create N_MAX_SCHEDULED_COMMANDS_LOG_2)
  /\ m_scheduler_thread_ptr s = Some Joinable
  /\ m_terminating s = false.
Proof.
  unfold create, constructor, init, bind, perform, ret, vkgl_assert, trap.
  destruct (new_scheduler alloc); [ | discriminate ].
  destruct (negb (mp =? 0)); [ | discriminate ].
  destruct (negb (fp =? 0)); [ | discriminate ].
  simpl.
  destruct (new_ring_buffer alloc); simpl; [ | discriminate ].
  destruct (new_thread alloc); simpl; [ | discriminate ].
  intros H. inversion H; subst. repeat split.
Qed.

(** [create] never gets to destroy a scheduler it could not initialise: the
    assertion in the failing branch of [init] traps first. *)
Lemma create_releases_nothing (alloc : Allocations) (fp mp : ptr)
    (past : list Step) :
  exists steps : list Step,
    state_after (create alloc fp mp past) = past ++ steps
    /\ ~ In ReleaseRingBuffer steps.
Proof.
  unfold create, constructor, init, bind, perform, ret, vkgl_assert, trap.
  destruct (new_scheduler alloc);
    [ | exists []; simpl; rewrite app_nil_r; split; [ reflexivity | tauto ] ].
  destruct (negb (mp =? 0));
    [ | exists []; simpl; rewrite app_nil_r; split; [ reflexivity | tauto ] ].
  destruct (negb (fp =? 0));
    [ | exists []; simpl; rewrite app_nil_r; split; [ reflexivity | tauto ] ].
  simpl.
  destruct (new_ring_buffer alloc); simpl.
  - destruct (new_thread alloc); simpl;
      exists [NewRingBuffer; SpawnThread];
      (split; [ rewrite <- app_assoc; reflexivity
              | simpl; intros [H | [H | []]]; discriminate H ]).
  - exists [NewRingBuffer].
    split; [ reflexivity | simpl; intros [H | []]; discriminate H ].
Qed.

End Teardown.

(** C6.  Destroying a scheduler that [create] handed out sets the terminating
    flag, then joins the worker thread, then releases the ring buffer, and
    nothing else.  Whatever state a scheduler is destroyed in, the release of
    the ring buffer is the destructor's last step, and where a worker thread
    exists the setting of the flag and the join come before it.  [create]
    itself never releases a ring buffer. *)
Theorem destruction_joins_before_release :
  (forall (alloc : Allocations) (fp mp : ptr) (past past' : list Step)
          (s : VKScheduler),
      create alloc fp mp past = Done (Some s) past' ->
      forall done : list Step,
        destructor s done
        = Done {| m_command_ring_buffer_ptr := None
                ; m_scheduler_thread_ptr := Some Joined
                ; m_terminating := true |}
               (done ++ [SetTerminating; JoinThread; ReleaseRingBuffer]))
  /\ (forall (s : VKScheduler) (done : list Step),
        exists s' : VKScheduler,
          destructor s done
          = Done s' (done
                     ++ match m_scheduler_thread_ptr s with
                        | Some _ => [SetTerminating; JoinThread]
                        | None => []
                        end
                     ++ [ReleaseRingBuffer])
          /\ m_command_ring_buffer_ptr s' = None)
  /\ (forall (alloc : Allocations) (fp mp : ptr) (past : list Step),
        exists steps : list Step,
          state_after (create alloc fp mp past) = past ++ steps
          /\ ~ In ReleaseRingBuffer steps).
Proof.
  split; [ | split ].
  - intros alloc fp mp past past' s H done.
    destruct (create_some alloc fp mp past past' s H) as [_ [Ht _]].
    rewrite destructor_steps, Ht. reflexivity.
  - intros s done. rewrite destructor_steps.
    destruct (m_scheduler_thread_ptr s) as [th | ];
      eexists; split; reflexivity.
  - apply create_releases_nothing.
Qed.

Lemma destruction_joins_before_release_witness :
  let alloc := Build_Allocations true true true in
  create alloc 1 2 [] = Done (Some Example.started) [NewRingBuffer; SpawnThread]
  /\ destructor Example.started [NewRingBuffer; SpawnThread]
     = Done {| m_command_ring_buffer_ptr := None
             ; m_scheduler_thread_ptr := Some Joined
             ; m_terminating := true |}
            [ NewRingBuffer; SpawnThread
            ; SetTerminating; JoinThread; ReleaseRingBuffer ].
Proof.
  intros alloc.
  assert (H : create alloc 1 2 []
              = Done (Some Example.started) [NewRingBuffer; SpawnThread])
    by reflexivity.
  split; [ exact H | ].
  exact (proj1 destruction_joins_before_release alloc 1 2 [] _ _ H
           [NewRingBuffer; SpawnThread]).
Defined.

(** * Further properties *)

(** ** More on the comparison operators *)

Section PayloadOperators.

Import VKBufferPayload.

(** [operator==] is an equivalence on payloads: every payload equals itself,
    the order of the operands does not matter, and equality carries over a
    middle payload. *)
Theorem operator_eq_equivalence :
  (forall a : t, operator_eq a a = true)
  /\ (forall a b : t, operator_eq a b = operator_eq b a)
  /\ (forall a b c : t,
        operator_eq a b = true -> operator_eq b c = true ->
        operator_eq a c = true).
Proof.
  split; [ | split ].
  - intros a. apply operator_eq_true. repeat split.
  - intros a b. unfold operator_eq, TimeMarker.operator_eq.
    rewrite (Z.eqb_sym (id a)),
      (Z.eqb_sym (backend_buffer_creation_time_marker a)),
      (Z.eqb_sym (backend_mem_block_creation_time_marker a)),
      (Z.eqb_sym (frontend_object_creation_time_marker a)).
    reflexivity.
  - intros a b c Hab Hbc.
    apply operator_eq_true in Hab. apply operator_eq_true in Hbc.
    apply operator_eq_true.
    destruct Hab as [H1 [H2 [H3 H4]]]. destruct Hbc as [K1 [K2 [K3 K4]]].
    repeat split; congruence.
Qed.

Lemma operator_eq_equivalence_witness :
  operator_eq (with_pointers Example.seven_at_100 1 2)
              (with_pointers Example.seven_at_100 5 6) = true.
Proof.
  apply (proj2 (proj2 operator_eq_equivalence)
           (with_pointers Example.seven_at_100 1 2)
           (with_pointers Example.seven_at_100 3 4)
           (with_pointers Example.seven_at_100 5 6));
    reflexivity.
Defined.

(** [operator!=] answers [true] exactly when the ids differ or one of the
    three time markers differs; it is symmetric, and no payload differs from
    itself. *)
Theorem operator_ne_detects_a_difference :
  (forall a b : t,
      operator_ne a b = true <->
      id a <> id b
      \/ backend_buffer_creation_time_marker a
         <> backend_buffer_creation_time_marker b
      \/ backend_mem_block_creation_time_marker a
         <> backend_mem_block_creation_time_marker b
      \/ frontend_object_creation_time_marker a
         <> frontend_object_creation_time_marker b)
  /\ (forall a b : t, operator_ne a b = operator_ne b a)
  /\ (forall a : t, operator_ne a a = false).
Proof.
  split; [ | split ].
  - intros a b. unfold operator_ne, TimeMarker.operator_ne, TimeMarker.operator_eq.
    rewrite !orb_true_iff, !negb_true_iff, !Z.eqb_neq. tauto.
  - intros a b. unfold operator_ne, TimeMarker.operator_ne, TimeMarker.operator_eq.
    rewrite (Z.eqb_sym (id a)),
      (Z.eqb_sym (backend_buffer_creation_time_marker a)),
      (Z.eqb_sym (backend_mem_block_creation_time_marker a)),
      (Z.eqb_sym (frontend_object_creation_time_marker a)).
    reflexivity.
  - intros a. unfold operator_ne, TimeMarker.operator_ne, TimeMarker.operator_eq.
    rewrite !Z.eqb_refl. reflexivity.
Qed.

Lemma operator_ne_detects_a_difference_witness :
  operator_ne Example.seven_at_100 Example.seven_at_200 = true.
Proof.
  apply (proj1 operator_ne_detects_a_difference).
  right. right. right. simpl. lia.
Defined.



End PayloadOperators.

(** ** What processing one command can do *)

Section OneCommand.

Context {M : Type} {backend_buffer_manager : IVKBufferManager M}.
Variable argument_order : ArgumentOrder.

(** A buffer-data handler given a command of another class, or a buffer-data
    command without a buffer reference, traps at once. *)
Lemma process_buffer_data_command_malformed (c : CommandBase) (w : World M) :
  dynamic_cast_BufferDataCommand c = None
  \/ (exists b : BufferDataCommand,
        dynamic_cast_BufferDataCommand c = Some b
        /\ buffer_reference_ptr b = None) ->
  process_buffer_data_command argument_order c w = Trap AssertionFailure w.
Proof.
  intros [Hc | [b [Hc Hr]]]; unfold process_buffer_data_command.
  - rewrite Hc. reflexivity.
  - rewrite Hc. unfold vkgl_assert_not_null at 1. unfold bind at 1. simpl.
    rewrite Hr. reflexivity.
Qed.

(** Processing a command either traps before anything was done, or is the
    processing of a well-formed buffer-data command: step 1 runs, and the
    handler adds its node or trips the assertion on a null reference. *)
Lemma process_command_cases (c : CommandBase) (w : World M) :
  (exists sig : Signal,
      process_command argument_order c w = Trap sig w
      /\ (sig = NotYetSupported ->
          exists t, type c = Enumerated t /\ t <> BUFFER_DATA)
      /\ (sig = AssertionFailure ->
          type c = Enumerated BUFFER_DATA \/ exists raw, type c = Unrecognized raw))
  \/ (exists (b : BufferDataCommand) (r : GLBufferReference)
             (tb tm : TimeMarker.t) (res : option VKBufferReference)
             (w1 : World M),
        type c = Enumerated BUFFER_DATA
        /\ dynamic_cast_BufferDataCommand c = Some b
        /\ buffer_reference_ptr b = Some r
        /\ manager w1
           = manager (state_after
                        (retrieve_backend_buffer_reference argument_order
                           (GLBufferPayload.id (ReferenceBase.get_payload r))
                           (GLBufferPayload.object_creation_time
                              (ReferenceBase.get_payload r)) w))
        /\ frame_graph w1 = frame_graph w
        /\ logged w1 = logged w
        /\ calls w1
           = calls w
             ++ marker_queries argument_order
                  (GLBufferPayload.id (ReferenceBase.get_payload r))
                  (GLBufferPayload.object_creation_time
                     (ReferenceBase.get_payload r)) tb tm
             ++ [Call_acquire_object
                   (GLBufferPayload.id (ReferenceBase.get_payload r))
                   (GLBufferPayload.object_creation_time
                      (ReferenceBase.get_payload r)) tb tm res]
        /\ process_command argument_order c w
           = match res with
             | Some ref =>
                 Done tt
                   (add_node
                      (VKNodes.BufferData
                         {| inputs  := [Build_NodeIO (ReferenceBase.clone ref)
                                                     0 (size b)]
                          ; outputs := [Build_NodeIO (ReferenceBase.clone ref)
                                                     0 (size b)]
                          ; command_ptr := Some c |}) w1)
             | None => Trap AssertionFailure w1
             end).
Proof.
  destruct (type c) as [t | raw] eqn:Ht.
  - destruct t;
      try (left; exists NotYetSupported;
           split; [ eapply (process_command_stub argument_order _ c w);
                    [ | exact Ht ]; discriminate
                  | split; [ intros _; eexists; split;
                             [ reflexivity | discriminate ]
                           | discriminate ] ]).
    rewrite (process_command_enumerated argument_order BUFFER_DATA c Ht). simpl.
    destruct (dynamic_cast_BufferDataCommand c) as [b | ] eqn:Hc.
    + destruct (buffer_reference_ptr b) as [r | ] eqn:Hr.
      * right.
        rewrite (process_buffer_data_command_steps argument_order c b r w Hc Hr).
        destruct (retrieve_backend_buffer_reference_returns argument_order
                    (GLBufferPayload.id (ReferenceBase.get_payload r))
                    (GLBufferPayload.object_creation_time
                       (ReferenceBase.get_payload r)) w)
          as [tb [tm [res [w1 [E [Hfg [Hlog Hcalls]]]]]]].
        exists b, r, tb, tm, res, w1. rewrite !E.
        repeat (split; [ first [ reflexivity | assumption ] | ]).
        destruct res; reflexivity.
      * left. exists AssertionFailure.
        split; [ apply process_buffer_data_command_malformed;
                 right; exists b; split; assumption | ].
        split; [ discriminate | intros _; left; reflexivity ].
    + left. exists AssertionFailure.
      split; [ apply process_buffer_data_command_malformed; left; exact Hc | ].
      split; [ discriminate | intros _; left; reflexivity ].
  - left. exists AssertionFailure.
    split; [ apply (process_command_unrecognized argument_order raw c w Ht) | ].
    split; [ discriminate | intros _; right; exists raw; reflexivity ].
Qed.

End OneCommand.

(** A command tagged [BUFFER_DATA] whose object is of another class, or
    whose buffer reference is null, trips an assertion before the buffer
    manager is consulted: the world, and with it the record of calls on the
    manager, is as it was. *)
Theorem malformed_buffer_data_traps_first
    (M : Type) (mgr : IVKBufferManager M) (order : ArgumentOrder)
    (c : CommandBase) (w : World M) :
  type c = Enumerated BUFFER_DATA ->
  dynamic_cast_BufferDataCommand c = None
  \/ (exists b : BufferDataCommand,
        dynamic_cast_BufferDataCommand c = Some b
        /\ buffer_reference_ptr b = None) ->
  process_command order c w = Trap AssertionFailure w.
Proof.
  intros Ht H.
  rewrite (process_command_enumerated order BUFFER_DATA c Ht). simpl.
  apply process_buffer_data_command_malformed. exact H.
Qed.

Lemma malformed_buffer_data_traps_first_witness :
  process_command LeftToRight
    {| type := Enumerated BUFFER_DATA; object := OtherCommandObject |}
    Example.serving
  = Trap AssertionFailure Example.serving
  /\ process_command LeftToRight
       {| type := Enumerated BUFFER_DATA
        ; object := BufferDataCommandObject (Build_BufferDataCommand None 128) |}
       Example.serving
     = Trap AssertionFailure Example.serving.
Proof.
  split.
  - apply (malformed_buffer_data_traps_first Example.Scripted _ LeftToRight).
    + reflexivity.
    + left. reflexivity.
  - apply (malformed_buffer_data_traps_first Example.Scripted _ LeftToRight).
    + reflexivity.
    + right. exists (Build_BufferDataCommand None 128). split; reflexivity.
Defined.

(** The way processing a command ends tells what the command was.  Only a
    command tagged with an enumerator other than [BUFFER_DATA] ends in the
    not-yet-supported trap, and then nothing has been done; only a command
    tagged [BUFFER_DATA] or carrying an unrecognized tag ends in the
    assertion-failure trap; only a command tagged [BUFFER_DATA] is processed
    to its end. *)
Theorem outcome_tells_the_tag
    (M : Type) (mgr : IVKBufferManager M) (order : ArgumentOrder)
    (c : CommandBase) (w w' : World M) :
  (process_command order c w = Trap NotYetSupported w' ->
   w' = w /\ exists t, type c = Enumerated t /\ t <> BUFFER_DATA)
  /\ (process_command order c w = Trap AssertionFailure w' ->
      type c = Enumerated BUFFER_DATA \/ exists raw, type c = Unrecognized raw)
  /\ (process_command order c w = Done tt w' ->
      type c = Enumerated BUFFER_DATA).
Proof.
  destruct (process_command_cases order c w)
    as [[sig [E [Hn Ha]]]
       | [b [r [tb [tm [res [w1 [Ht [_ [_ [_ [_ [_ [_ E]]]]]]]]]]]]]].
  - rewrite E. split; [ | split ].
    + intros H. inversion H; subst. split; [ reflexivity | ].
      apply Hn. reflexivity.
    + intros H. inversion H; subst. apply Ha. reflexivity.
    + discriminate.
  - rewrite E. split; [ | split ].
    + destruct res; discriminate.
    + intros _. left. exact Ht.
    + intros _. exact Ht.
Qed.

Lemma outcome_tells_the_tag_witness :
  (Example.serving = Example.serving
   /\ exists t, type Example.clear = Enumerated t /\ t <> BUFFER_DATA)
  /\ (type Example.stray = Enumerated BUFFER_DATA
      \/ exists raw, type Example.stray = Unrecognized raw)
  /\ type (Example.buffer_data 128) = Enumerated BUFFER_DATA.
Proof.
  split; [ | split ].
  - apply (proj1 (outcome_tells_the_tag Example.Scripted _ LeftToRight
                    Example.clear Example.serving Example.serving)).
    reflexivity.
  - apply (proj1 (proj2 (outcome_tells_the_tag Example.Scripted _ LeftToRight
                           Example.stray Example.serving Example.serving))).
    reflexivity.
  - apply (proj2 (proj2 (outcome_tells_the_tag Example.Scripted _ LeftToRight
                           (Example.buffer_data 128) Example.serving
                           (state_after (process_command LeftToRight
                                           (Example.buffer_data 128)
                                           Example.serving))))).
    vm_compute. reflexivity.
Defined.

(** Processing one command consults the buffer manager all the way or not at
    all: either no call is made on it and it is left as it was, or the
    command is tagged [BUFFER_DATA] and exactly the two marker queries and
    the call to [acquire_object] are made, in that order of kinds, all three
    for the same id and creation marker.  The log is never written to. *)
Theorem manager_consulted_fully_or_not_at_all
    (M : Type) (mgr : IVKBufferManager M) (order : ArgumentOrder)
    (c : CommandBase) (w : World M) :
  let w' := state_after (process_command order c w) in
  logged w' = logged w
  /\ ((calls w' = calls w /\ manager w' = manager w
       /\ is_trap (process_command order c w) = true)
      \/ (type c = Enumerated BUFFER_DATA
          /\ exists (in_id : GLuint) (in_time tb tm : TimeMarker.t)
                    (res : option VKBufferReference),
               calls w' = calls w
                          ++ marker_queries order in_id in_time tb tm
                          ++ [Call_acquire_object in_id in_time tb tm res]
               /\ (is_trap (process_command order c w) = true <-> res = None))).
Proof.
  intros w'. subst w'.
  destruct (process_command_cases order c w)
    as [[sig [E _]]
       | [b [r [tb [tm [res [w1 [Ht [_ [_ [_ [_ [Hlog [Hcalls E]]]]]]]]]]]]]];
    rewrite E.
  - split; [ reflexivity | ]. left. repeat split.
  - destruct res as [ref | ]; simpl.
    + split; [ exact Hlog | ]. right. split; [ exact Ht | ].
      eexists. eexists. exists tb, tm, (Some ref).
      split; [ exact Hcalls | ]. split; discriminate.
    + split; [ exact Hlog | ]. right. split; [ exact Ht | ].
      eexists. eexists. exists tb, tm, None.
      split; [ exact Hcalls | ]. split; reflexivity.
Qed.

(** ** What the worker's loop leaves behind *)

Section LoopEffects.

Context {M : Type} {backend_buffer_manager : IVKBufferManager M}.
Variable argument_order : ArgumentOrder.

Ltac nothing_added :=
  simpl; rewrite ?app_nil_r;
  repeat match goal with |- _ /\ _ => split end;
  first [ reflexivity
        | assumption
        | intros ? []
        | intros _; reflexivity
        | discriminate ].

(** The nodes the loop adds are one for each command processed to its end,
    in the order the commands were dequeued; the log is not written to. *)
Lemma do_while_true_nodes (ticks : list Tick) (w : World M) :
  exists (processed pending : list CommandBase) (nodes : list VKFrameGraphNode),
    dequeued ticks = processed ++ pending
    /\ frame_graph (world_of (do_while_true argument_order ticks w))
       = frame_graph w ++ nodes
    /\ map (fun n => command_ptr (create_info_of n)) nodes = map Some processed
    /\ (forall n, In n nodes ->
          List.length (inputs (create_info_of n)) = 1%nat
          /\ List.length (outputs (create_info_of n)) = 1%nat
          /\ inputs (create_info_of n) = outputs (create_info_of n))
    /\ (forall c, In c processed -> type c = Enumerated BUFFER_DATA)
    /\ (is_looping (do_while_true argument_order ticks w) = true ->
        pending = [])
    /\ logged (world_of (do_while_true argument_order ticks w)) = logged w.
Proof.
  revert w. induction ticks as [ | tick later IH ]; intros w.
  - exists [], [], []. nothing_added.
  - simpl. destruct (grab_with_timeout tick) as [c | ] eqn:Hg.
    + destruct (process_command_cases argument_order c w)
        as [[sig [E _]]
           | [b [r [tb [tm [res [w1 [Ht [_ [_ [_ [Hfg [Hlog [_ E]]]]]]]]]]]]]];
        rewrite E.
      * exists [], (c :: dequeued later), []. nothing_added.
      * destruct res as [ref | ].
        -- destruct (IH (add_node
                           (VKNodes.BufferData
                              {| inputs := [Build_NodeIO (ReferenceBase.clone ref)
                                                         0 (size b)]
                               ; outputs := [Build_NodeIO (ReferenceBase.clone ref)
                                                          0 (size b)]
                               ; command_ptr := Some c |}) w1))
             as [processed [pending [nodes [Hd [Hn [Hm [Hb [Hp [Hl Hlg]]]]]]]]].
           exists (c :: processed), pending.
           eexists (_ :: nodes).
           split; [ simpl; rewrite Hd; reflexivity | ].
           split; [ rewrite Hn; simpl; rewrite Hfg, <- app_assoc; reflexivity | ].
           split; [ simpl; rewrite Hm; reflexivity | ].
           split; [ intros n [Hn' | Hn'];
                    [ subst n; repeat split | apply Hb; exact Hn' ] | ].
           split; [ intros c' [Hc' | Hc'];
                    [ subst c'; exact Ht | apply Hp; exact Hc' ] | ].
           split; [ exact Hl | ].
           rewrite Hlg. simpl. exact Hlog.
        -- exists [], (c :: dequeued later), []. nothing_added.
    + destruct (m_terminating_load tick).
      * exists [], (dequeued later), []. nothing_added.
      * apply IH.
Qed.

End LoopEffects.

(** The worker thread returns at the first turn on which [grab_with_timeout]
    times out with the terminating flag set, having processed the commands
    dequeued before that turn (unless one of them trapped) and logged that it
    quits; the turns after it play no part. *)
Theorem worker_returns_at_first_final_turn
    (M : Type) (mgr : IVKBufferManager M) (order : ArgumentOrder)
    (before after : list Tick) (tick : Tick) (w : World M) :
  forallb stays_in_loop before = true ->
  is_final tick = true ->
  main_thread_entrypoint order (before ++ tick :: after) w =
  match process_commands order (dequeued before) (log_info thread_started w)
  with
  | Done _ w1 => Returned (log_info thread_quitting w1)
  | Trap sig w1 => Trapped sig w1
  end.
Proof.
  intros Hb Hf. unfold main_thread_entrypoint.
  rewrite (do_while_true_app order before (tick :: after) _ Hb).
  destruct (process_commands order (dequeued before) (log_info thread_started w))
    as [[] w1 | sig w1]; [ | reflexivity ].
  simpl. unfold is_final in Hf.
  destruct (grab_with_timeout tick); [ discriminate Hf | ].
  rewrite Hf. reflexivity.
Qed.

Lemma worker_returns_at_first_final_turn_witness :
  let busy := Build_Tick (Some (Example.buffer_data 128)) true in
  let idle := Build_Tick None false in
  let last := Build_Tick None true in
  main_thread_entrypoint LeftToRight ([idle; busy] ++ last :: [busy])
    Example.serving
  = match process_commands LeftToRight (dequeued [idle; busy])
            (log_info thread_started Example.serving)
    with
    | Done _ w1 => Returned (log_info thread_quitting w1)
    | Trap sig w1 => Trapped sig w1
    end.
Proof.
  intros busy idle last.
  apply (worker_returns_at_first_final_turn Example.Scripted _ LeftToRight
           [idle; busy] [busy] last Example.serving);
    reflexivity.
Defined.

(** Whatever turns the worker thread is given, the nodes found in the frame
    graph afterwards are the nodes that were there, in their order, followed
    by one node for each command processed to its end, in the order the
    commands were dequeued.  Each of those commands is tagged [BUFFER_DATA],
    each new node has one input and one output binding, the two being the
    same, and while the thread is still in its loop every dequeued command has
    its node. *)
Theorem frame_graph_gets_one_node_per_processed_command
    (M : Type) (mgr : IVKBufferManager M) (order : ArgumentOrder)
    (ticks : list Tick) (w : World M) :
  exists (processed pending : list CommandBase) (nodes : list VKFrameGraphNode),
    dequeued ticks = processed ++ pending
    /\ frame_graph (world_of (main_thread_entrypoint order ticks w))
       = frame_graph w ++ nodes
    /\ map (fun n => command_ptr (create_info_of n)) nodes = map Some processed
    /\ (forall n, In n nodes ->
          List.length (inputs (create_info_of n)) = 1%nat
          /\ List.length (outputs (create_info_of n)) = 1%nat
          /\ inputs (create_info_of n) = outputs (create_info_of n))
    /\ (forall c, In c processed -> type c = Enumerated BUFFER_DATA)
    /\ (is_looping (main_thread_entrypoint order ticks w) = true ->
        pending = []).
Proof.
  destruct (do_while_true_nodes order ticks (log_info thread_started w))
    as [processed [pending [nodes [Hd [Hn [Hm [Hb [Hp [Hl _]]]]]]]]].
  exists processed, pending, nodes.
  unfold main_thread_entrypoint.
  destruct (do_while_true order ticks (log_info thread_started w))
    as [w1 | w1 | sig w1]; simpl in *; repeat split;
    try assumption; try (apply Hb; assumption).
Qed.

(** The worker thread logs that it started before anything else, logs that
    it quits exactly when it returns from its loop, and logs nothing in
    between. *)
Theorem thread_logs_start_and_quit
    (M : Type) (mgr : IVKBufferManager M) (order : ArgumentOrder)
    (ticks : list Tick) (w : World M) :
  logged (world_of (main_thread_entrypoint order ticks w))
  = logged w
    ++ thread_started
       :: match main_thread_entrypoint order ticks w with
          | Returned _ => [thread_quitting]
          | _ => []
          end.
Proof.
  destruct (do_while_true_nodes order ticks (log_info thread_started w))
    as [_ [_ [_ [_ [_ [_ [_ [_ [_ Hlog]]]]]]]]].
  unfold main_thread_entrypoint.
  destruct (do_while_true order ticks (log_info thread_started w))
    as [w1 | w1 | sig w1]; simpl in *; rewrite Hlog; try reflexivity.
  rewrite <- app_assoc. reflexivity.
Qed.

(** ** What the buffer-data handler does not depend on *)

Section Independence.

Context {M : Type} {backend_buffer_manager : IVKBufferManager M}.

(** With marker queries that leave the manager as it is, step 1 retrieves the
    same reference and leaves the same manager under either order of
    evaluation; only the record of the two queries is swapped. *)
Lemma retrieve_either_order
    (in_id : GLuint) (in_time : TimeMarker.t) (w : World M) :
  (forall i t m, snd (get_tot_buffer_time_marker i t m) = m) ->
  (forall i t m, snd (get_tot_memory_block_time_marker i t m) = m) ->
  exists (res : option VKBufferReference) (wl wr : World M),
    retrieve_backend_buffer_reference LeftToRight in_id in_time w = Done res wl
    /\ retrieve_backend_buffer_reference RightToLeft in_id in_time w = Done res wr
    /\ manager wl = manager wr
    /\ frame_graph wl = frame_graph wr
    /\ logged wl = logged wr
    /\ Permutation (calls wl) (calls wr).
Proof.
  intros Hb Hm.
  unfold retrieve_backend_buffer_reference, evaluate_arguments,
    bind, ret, call_acquire_object, call_get_tot_buffer_time_marker,
    call_get_tot_memory_block_time_marker. simpl.
  pose proof (Hb in_id in_time (manager w)) as Hb1.
  pose proof (Hm in_id in_time (manager w)) as Hm1.
  destruct (get_tot_buffer_time_marker in_id in_time (manager w))
    as [tb mb] eqn:Eb.
  destruct (get_tot_memory_block_time_marker in_id in_time (manager w))
    as [tm mm] eqn:Em.
  simpl in Hb1, Hm1. subst mb mm. simpl. rewrite Eb, Em. simpl.
  destruct (acquire_object in_id in_time tb tm (manager w)) as [res m'] eqn:Ea.
  exists res. eexists. eexists.
  split; [ reflexivity | ]. split; [ reflexivity | ]. simpl.
  repeat split.
  rewrite <- !app_assoc. apply Permutation_app_head. simpl. apply perm_swap.
Qed.

Lemma with_snapshot_time_type (c : CommandBase) (t : TimeMarker.t) :
  type (with_snapshot_time c t) = type c.
Proof.
  unfold with_snapshot_time.
  destruct (object c) as [[[r | ] sz] | ]; reflexivity.
Qed.

End Independence.

(** Where the two marker queries leave the manager as it is, the order in
    which the compiler evaluates the arguments of the call to [acquire_object]
    makes no difference to how a command is processed: the same outcome, the
    same manager, frame graph and log; the calls made on the manager are the
    same up to their order. *)
Theorem argument_order_immaterial_for_pure_queries
    (M : Type) (mgr : IVKBufferManager M) (c : CommandBase) (w : World M) :
  (forall i t m, snd (get_tot_buffer_time_marker i t m) = m) ->
  (forall i t m, snd (get_tot_memory_block_time_marker i t m) = m) ->
  let l := process_command LeftToRight c w in
  let r := process_command RightToLeft c w in
  signal_of l = signal_of r
  /\ is_trap l = is_trap r
  /\ manager (state_after l) = manager (state_after r)
  /\ frame_graph (state_after l) = frame_graph (state_after r)
  /\ logged (state_after l) = logged (state_after r)
  /\ Permutation (calls (state_after l)) (calls (state_after r)).
Proof.
  intros Hb Hm l r. subst l r.
  destruct (type c) as [t | raw] eqn:Ht.
  - destruct t;
      try (match type of Ht with
           | _ = Enumerated ?tag =>
               rewrite (process_command_stub LeftToRight tag c w
                          ltac:(discriminate) Ht),
                       (process_command_stub RightToLeft tag c w
                          ltac:(discriminate) Ht)
           end;
           repeat split; apply Permutation_refl).
    rewrite !(process_command_enumerated _ BUFFER_DATA c Ht). simpl.
    destruct (dynamic_cast_BufferDataCommand c) as [b | ] eqn:Hc.
    + destruct (buffer_reference_ptr b) as [ref | ] eqn:Hr.
      * rewrite !(process_buffer_data_command_steps _ c b ref w Hc Hr).
        destruct (retrieve_either_order
                    (GLBufferPayload.id (ReferenceBase.get_payload ref))
                    (GLBufferPayload.object_creation_time
                       (ReferenceBase.get_payload ref)) w Hb Hm)
          as [res [wl [wr [El [Er [H1 [H2 [H3 H4]]]]]]]].
        rewrite El, Er.
        destruct res as [backend | ]; simpl; repeat split;
          try assumption. rewrite H2. reflexivity.
      * rewrite !process_buffer_data_command_malformed
          by (right; exists b; split; assumption).
        repeat split; apply Permutation_refl.
    + rewrite !process_buffer_data_command_malformed by (left; exact Hc).
      repeat split; apply Permutation_refl.
  - rewrite !(process_command_unrecognized _ raw c w Ht).
    repeat split; apply Permutation_refl.
Qed.

Lemma argument_order_immaterial_for_pure_queries_witness :
  let c := Example.buffer_data 128 in
  let l := process_command LeftToRight c Ledger.fresh in
  let r := process_command RightToLeft c Ledger.fresh in
  signal_of l = signal_of r
  /\ is_trap l = is_trap r
  /\ manager (state_after l) = manager (state_after r)
  /\ frame_graph (state_after l) = frame_graph (state_after r)
  /\ logged (state_after l) = logged (state_after r)
  /\ Permutation (calls (state_after l)) (calls (state_after r)).
Proof.
  apply (argument_order_immaterial_for_pure_queries Ledger.t _
           (Example.buffer_data 128) Ledger.fresh);
    intros i t m; reflexivity.
Defined.

(** The snapshot marker of the command's buffer reference is read by the
    handler and then plays no part: with any other snapshot marker the
    command is processed to the same outcome, with the same calls on the
    manager, the same manager and log, and nodes with the same bindings. *)
Theorem snapshot_marker_has_no_influence
    (M : Type) (mgr : IVKBufferManager M) (order : ArgumentOrder)
    (c : CommandBase) (t : TimeMarker.t) (w : World M) :
  let o := process_command order c w in
  let o' := process_command order (with_snapshot_time c t) w in
  signal_of o = signal_of o'
  /\ is_trap o = is_trap o'
  /\ manager (state_after o) = manager (state_after o')
  /\ calls (state_after o) = calls (state_after o')
  /\ logged (state_after o) = logged (state_after o')
  /\ map bindings (frame_graph (state_after o))
     = map bindings (frame_graph (state_after o')).
Proof.
  intros o o'. subst o o'.
  pose proof (with_snapshot_time_type c t) as Hty.
  destruct (object c) as [[[r | ] sz] | ] eqn:Ho.
  - destruct (type c) as [tag | raw] eqn:Ht.
    + destruct tag;
        try (match type of Ht with
             | _ = Enumerated ?tag =>
                 rewrite (process_command_stub order tag c w
                            ltac:(discriminate) Ht),
                         (process_command_stub order tag
                            (with_snapshot_time c t) w
                            ltac:(discriminate) Hty)
             end;
             repeat split).
      rewrite (process_command_enumerated order BUFFER_DATA c Ht),
        (process_command_enumerated order BUFFER_DATA _ Hty). simpl.
      rewrite (process_buffer_data_command_steps order c
                 (Build_BufferDataCommand (Some r) sz) r w);
        [ | unfold dynamic_cast_BufferDataCommand; rewrite Ho; reflexivity
          | reflexivity ].
      rewrite (process_buffer_data_command_steps order (with_snapshot_time c t)
                 (Build_BufferDataCommand
                    (Some (ReferenceBase.Build
                             (GLBufferPayload.Build
                                (GLBufferPayload.id (ReferenceBase.get_payload r))
                                (GLBufferPayload.object_creation_time
                                   (ReferenceBase.get_payload r)) t))) sz)
                 (ReferenceBase.Build
                    (GLBufferPayload.Build
                       (GLBufferPayload.id (ReferenceBase.get_payload r))
                       (GLBufferPayload.object_creation_time
                          (ReferenceBase.get_payload r)) t)) w);
        [ | unfold dynamic_cast_BufferDataCommand, with_snapshot_time;
            rewrite Ho; reflexivity
          | reflexivity ].
      simpl.
      destruct (retrieve_backend_buffer_reference order
                  (GLBufferPayload.id (ReferenceBase.get_payload r))
                  (GLBufferPayload.object_creation_time
                     (ReferenceBase.get_payload r)) w)
        as [[backend | ] w1 | sig w1]; simpl; repeat split.
      rewrite !map_app. reflexivity.
    + rewrite (process_command_unrecognized order raw c w Ht),
        (process_command_unrecognized order raw (with_snapshot_time c t) w Hty).
      repeat split.
  - unfold with_snapshot_time. rewrite Ho. repeat split.
  - unfold with_snapshot_time. rewrite Ho. repeat split.
Qed.

(** ** Creating a scheduler and submitting to it *)

Section Creation.

Lemma create_unfolded (alloc : Allocations) (fp mp : ptr) (past : list Step) :
  create alloc fp mp past =
  if negb (new_scheduler alloc) then Done None past
  else if (mp =? 0) || (fp =? 0) then Trap AssertionFailure past
  else if negb (new_ring_buffer alloc)
       then Trap AssertionFailure (past ++ [NewRingBuffer])
  else if negb (new_thread alloc)
       then Trap AssertionFailure (past ++ [NewRingBuffer; SpawnThread])
  else Done (Some {| m_command_ring_buffer_ptr :=
                       Some (RingBuffer.create N_MAX_SCHEDULED_COMMANDS_LOG_2)
                   ; m_scheduler_thread_ptr := Some Joinable
                   ; m_terminating := false |})
            (past ++ [NewRingBuffer; SpawnThread]).
Proof.
  unfold create, constructor, init, bind, perform, ret, vkgl_assert, trap.
  destruct (new_scheduler alloc); [ | reflexivity ].
  destruct (mp =? 0); [ reflexivity | ].
  destruct (fp =? 0); [ reflexivity | ].
  simpl.
  destruct (new_ring_buffer alloc); simpl; [ | reflexivity ].
  destruct (new_thread alloc); simpl; rewrite <- app_assoc; reflexivity.
Qed.

End Creation.

Ltac settle :=
  repeat match goal with
         | |- _ /\ _ => split
         | |- _ <-> _ => split
         | |- forall _, _ => intro
         | H : exists _, _ |- _ => destruct H
         | H : _ /\ _ |- _ => destruct H
         | H : Done _ _ = Done _ _ |- _ => inversion H; clear H; subst
         | H : Done _ _ = Trap _ _ |- _ => discriminate H
         | H : Trap _ _ = Done _ _ |- _ => discriminate H
         | H : Some _ = None |- _ => discriminate H
         | H : None = Some _ |- _ => discriminate H
         | H : true = false |- _ => discriminate H
         | H : false = true |- _ => discriminate H
         end.

(** [create] is all or nothing.  It hands out a scheduler exactly when the
    three allocations succeed and neither pointer argument is null; that
    scheduler then owns an empty ring buffer with room for 65536 commands and
    a running worker thread, and its terminating flag is unset.  It returns
    null only when the scheduler object itself could not be allocated, having
    done nothing.  In every other case it traps, and no scheduler is left
    behind half built. *)
Theorem create_is_all_or_nothing
    (alloc : Allocations) (fp mp : ptr) (past : list Step) :
  ((exists s past', create alloc fp mp past = Done (Some s) past')
   <-> new_scheduler alloc = true /\ new_ring_buffer alloc = true
       /\ new_thread alloc = true /\ fp <> 0 /\ mp <> 0)
  /\ (forall s past',
        create alloc fp mp past = Done (Some s) past' ->
        past' = past ++ [NewRingBuffer; SpawnThread]
        /\ m_scheduler_thread_ptr s = Some Joinable
        /\ m_terminating s = false
        /\ exists rb, m_command_ring_buffer_ptr s = Some rb
                      /\ RingBuffer.items rb = []
                      /\ RingBuffer.capacity rb = 65536)
  /\ (forall past',
        create alloc fp mp past = Done None past' ->
        new_scheduler alloc = false /\ past' = past)
  /\ (is_trap (create alloc fp mp past) = true
      <-> new_scheduler alloc = true
          /\ (fp = 0 \/ mp = 0 \/ new_ring_buffer alloc = false
              \/ new_thread alloc = false)).
Proof.
  rewrite create_unfolded.
  destruct (new_scheduler alloc), (new_ring_buffer alloc), (new_thread alloc),
    (Z.eqb_spec mp 0), (Z.eqb_spec fp 0); simpl; settle;
    try reflexivity; try assumption; try tauto;
    try (eexists; eexists; reflexivity);
    try (eexists; repeat split; reflexivity).
  all: match goal with H : _ \/ _ |- _ => decompose [or] H end;
    first [ contradiction | discriminate ].
Qed.

Lemma create_is_all_or_nothing_witness :
  exists s past',
    create (Build_Allocations true true true) 1 2 [] = Done (Some s) past'.
Proof.
  apply (proj1 (create_is_all_or_nothing
                  (Build_Allocations true true true) 1 2 [])).
  repeat split; discriminate.
Defined.

(** [init] never reports failure through its result: it returns [true],
    with the ring buffer created, the thread spawned and the terminating flag
    as it was, or it traps.  When the ring buffer cannot be allocated it
    traps before any thread is spawned. *)
Theorem init_returns_true_or_traps
    (alloc : Allocations) (self : VKScheduler) (past : list Step) :
  (forall (b : bool) (self' : VKScheduler) (past' : list Step),
      init alloc self past = Done (b, self') past' ->
      b = true
      /\ new_ring_buffer alloc = true /\ new_thread alloc = true
      /\ m_command_ring_buffer_ptr self'
         = Some (RingBuffer.create N_MAX_SCHEDULED_COMMANDS_LOG_2)
      /\ m_scheduler_thread_ptr self' = Some Joinable
      /\ m_terminating self' = m_terminating self
      /\ past' = past ++ [NewRingBuffer; SpawnThread])
  /\ (new_ring_buffer alloc = false ->
      init alloc self past = Trap AssertionFailure (past ++ [NewRingBuffer]))
  /\ (new_ring_buffer alloc = true -> new_thread alloc = false ->
      init alloc self past
      = Trap AssertionFailure (past ++ [NewRingBuffer; SpawnThread]))
  /\ (new_ring_buffer alloc = true -> new_thread alloc = true ->
      is_trap (init alloc self past) = false).
Proof.
  unfold init, bind, perform, ret, vkgl_assert, trap.
  destruct (new_ring_buffer alloc), (new_thread alloc); simpl; settle;
    try reflexivity; rewrite <- app_assoc; reflexivity.
Qed.

Lemma init_returns_true_or_traps_witness :
  let fresh := Build_VKScheduler None None false in
  init (Build_Allocations true false true) fresh []
  = Trap AssertionFailure [NewRingBuffer]
  /\ init (Build_Allocations true true false) fresh []
     = Trap AssertionFailure [NewRingBuffer; SpawnThread]
  /\ is_trap (init (Build_Allocations true true true) fresh []) = false.
Proof.
  intros fresh. split; [ | split ].
  - apply (proj1 (proj2 (init_returns_true_or_traps
                           (Build_Allocations true false true) fresh []))).
    reflexivity.
  - apply (proj1 (proj2 (proj2 (init_returns_true_or_traps
                                  (Build_Allocations true true false) fresh [])))).
    + reflexivity.
    + reflexivity.
  - apply (proj2 (proj2 (proj2 (init_returns_true_or_traps
                                  (Build_Allocations true true true) fresh [])))).
    + reflexivity.
    + reflexivity.
Defined.

(** [submit] trips its assertion exactly when the scheduler has no ring
    buffer.  Otherwise it returns, and it neither reads nor changes the
    worker thread pointer and the terminating flag: a command is taken just
    the same after termination has been requested.  A command that is taken
    is put behind the commands already waiting; a command that is not taken
    leaves the scheduler as it was. *)
Theorem submit_touches_only_the_ring_buffer
    (c : CommandBase) (self : VKScheduler) :
  (m_command_ring_buffer_ptr self = None <-> is_trap (submit c self) = true)
  /\ (m_command_ring_buffer_ptr self = None ->
      submit c self = Trap AssertionFailure self)
  /\ (forall (taken : bool) (self' : VKScheduler),
        submit c self = Done taken self' ->
        m_scheduler_thread_ptr self' = m_scheduler_thread_ptr self
        /\ m_terminating self' = m_terminating self
        /\ (taken = false -> self' = self)
        /\ (taken = true ->
            exists rb rb',
              m_command_ring_buffer_ptr self = Some rb
              /\ m_command_ring_buffer_ptr self' = Some rb'
              /\ RingBuffer.items rb' = RingBuffer.items rb ++ [c]
              /\ RingBuffer.capacity rb' = RingBuffer.capacity rb))
  /\ (forall (th : option Thread) (flag : bool),
        let other := {| m_command_ring_buffer_ptr := m_command_ring_buffer_ptr self
                      ; m_scheduler_thread_ptr := th
                      ; m_terminating := flag |} in
        match submit c self, submit c other with
        | Done taken self', Done taken' other' =>
            taken = taken'
            /\ m_command_ring_buffer_ptr self' = m_command_ring_buffer_ptr other'
        | Trap sig _, Trap sig' _ => sig = sig'
        | _, _ => False
        end).
Proof.
  unfold submit.
  destruct (m_command_ring_buffer_ptr self) as [rb | ] eqn:Hrb; simpl.
  - unfold RingBuffer.stash.
    destruct (Z.of_nat (List.length (RingBuffer.items rb)) <? RingBuffer.capacity rb);
      simpl; settle; try reflexivity; try discriminate; try assumption;
      try (exists rb; eexists; repeat split; reflexivity).
  - settle; reflexivity.
Qed.

Lemma submit_touches_only_the_ring_buffer_witness :
  submit Example.clear (Build_VKScheduler None (Some Joinable) true)
  = Trap AssertionFailure (Build_VKScheduler None (Some Joinable) true)
  /\ exists rb rb',
       m_command_ring_buffer_ptr Example.started = Some rb
       /\ m_command_ring_buffer_ptr
            (state_after (submit Example.clear Example.started)) = Some rb'
       /\ RingBuffer.items rb' = RingBuffer.items rb ++ [Example.clear]
       /\ RingBuffer.capacity rb' = RingBuffer.capacity rb.
Proof.
  split.
  - apply (proj1 (proj2 (submit_touches_only_the_ring_buffer Example.clear
                           (Build_VKScheduler None (Some Joinable) true)))).
    reflexivity.
  - apply (proj1 (proj2 (proj2 (submit_touches_only_the_ring_buffer
                                  Example.clear Example.started)))
             true (state_after (submit Example.clear Example.started)));
      reflexivity.
Defined.

Section Submission.

Lemma grab_each_items (k : Z) (items : list CommandBase) (flag : bool) :
  grab_each (List.length items) (RingBuffer.Build k items) flag
  = map (fun c => Build_Tick (Some c) flag) items.
Proof.
  induction items as [ | c items IH ]; simpl.
  - reflexivity.
  - rewrite IH. reflexivity.
Qed.

Lemma draining_items (rb : RingBuffer.t) (flag : bool) :
  draining rb flag = map (fun c => Build_Tick (Some c) flag) (RingBuffer.items rb)
  /\ dequeued (draining rb flag) = RingBuffer.items rb
  /\ forallb stays_in_loop (draining rb flag) = true.
Proof.
  destruct rb as [k items]. unfold draining. simpl.
  rewrite grab_each_items. split; [ reflexivity | ].
  induction items as [ | c items [IH1 IH2] ]; simpl.
  - split; reflexivity.
  - rewrite IH1. split; [ reflexivity | exact IH2 ].
Qed.

Lemma submit_all_room (cs : list CommandBase) :
  forall (self : VKScheduler) (rb : RingBuffer.t),
    m_command_ring_buffer_ptr self = Some rb ->
    Z.of_nat (List.length (RingBuffer.items rb) + List.length cs)
    <= RingBuffer.capacity rb ->
    exists (self' : VKScheduler) (rb' : RingBuffer.t),
      submit_all cs self = Done true self'
      /\ m_command_ring_buffer_ptr self' = Some rb'
      /\ RingBuffer.items rb' = RingBuffer.items rb ++ cs.
Proof.
  induction cs as [ | c cs IH ]; intros self rb Hrb Hroom.
  - exists self, rb. simpl. rewrite app_nil_r. repeat split; assumption.
  - simpl. unfold submit. rewrite Hrb. unfold RingBuffer.stash.
    simpl in Hroom.
    destruct (Z.ltb_spec (Z.of_nat (List.length (RingBuffer.items rb)))
                (RingBuffer.capacity rb)) as [Hlt | Hge]; [ | lia ].
    destruct (IH {| m_command_ring_buffer_ptr :=
                      Some (RingBuffer.Build (RingBuffer.capacity_log_2 rb)
                              (RingBuffer.items rb ++ [c]))
                  ; m_scheduler_thread_ptr := m_scheduler_thread_ptr self
                  ; m_terminating := m_terminating self |}
                (RingBuffer.Build (RingBuffer.capacity_log_2 rb)
                   (RingBuffer.items rb ++ [c])) eq_refl)
      as [self' [rb' [E [Hrb' Hitems]]]].
    + unfold RingBuffer.capacity in *. simpl.
      rewrite length_app. simpl. lia.
    + exists self', rb'. split; [ exact E | ]. split; [ exact Hrb' | ].
      rewrite Hitems. simpl. rewrite <- app_assoc. reflexivity.
Qed.

End Submission.

(** Commands submitted in a row by one thread, as long as the ring buffer has
    room for them, are all taken, wait behind the commands already queued,
    and are then handed to [process_command] in the order of submission: the
    worker that finds them waiting processes the queued commands one after
    the other, oldest first, up to the first that traps. *)
Theorem submissions_are_processed_in_order
    (M : Type) (mgr : IVKBufferManager M) (order : ArgumentOrder)
    (cs : list CommandBase) (self : VKScheduler) (rb : RingBuffer.t)
    (flag : bool) (w : World M) :
  m_command_ring_buffer_ptr self = Some rb ->
  Z.of_nat (List.length (RingBuffer.items rb) + List.length cs)
  <= RingBuffer.capacity rb ->
  exists (self' : VKScheduler) (rb' : RingBuffer.t),
    submit_all cs self = Done true self'
    /\ m_command_ring_buffer_ptr self' = Some rb'
    /\ RingBuffer.items rb' = RingBuffer.items rb ++ cs
    /\ dequeued (draining rb' flag) = RingBuffer.items rb ++ cs
    /\ do_while_true order (draining rb' flag) w
       = match process_commands order (RingBuffer.items rb ++ cs) w with
         | Done _ w' => Looping w'
         | Trap sig w' => Trapped sig w'
         end.
Proof.
  intros Hrb Hroom.
  destruct (submit_all_room cs self rb Hrb Hroom) as [self' [rb' [E [Hrb' Hi]]]].
  exists self', rb'.
  destruct (draining_items rb' flag) as [_ [Hd Hs]].
  split; [ exact E | ]. split; [ exact Hrb' | ]. split; [ exact Hi | ].
  split; [ rewrite Hd; exact Hi | ].
  rewrite (do_while_true_not_final order _ w Hs), Hd, Hi. reflexivity.
Qed.

Lemma submissions_are_processed_in_order_witness :
  let cs := [Example.buffer_data 128; Example.buffer_data 64; Example.clear] in
  exists (self' : VKScheduler) (rb' : RingBuffer.t),
    submit_all cs Example.started = Done true self'
    /\ m_command_ring_buffer_ptr self' = Some rb'
    /\ RingBuffer.items rb' = [] ++ cs
    /\ dequeued (draining rb' true) = [] ++ cs
    /\ do_while_true LeftToRight (draining rb' true) Example.serving
       = match process_commands LeftToRight ([] ++ cs) Example.serving with
         | Done _ w' => Looping w'
         | Trap sig w' => Trapped sig w'
         end.
Proof.
  intros cs.
  apply (submissions_are_processed_in_order Example.Scripted _ LeftToRight cs
           Example.started
           (RingBuffer.create N_MAX_SCHEDULED_COMMANDS_LOG_2) true
           Example.serving).
  - reflexivity.
  - vm_compute. discriminate.
Defined.
